(** * Contract-verification request adapter (ui/contractVerification/utils.ts)

    A shallow embedding of the verification-method registry, the request
    body builder [prepareRequestBody] and the error remapper
    [formatSocketErrors], with the JavaScript runtime pieces they rest on
    (property lists, [Array.prototype] helpers, [FormData]).

    A JavaScript object is modelled by the list of its own properties; an
    object literal inherits the members of [Object.prototype], which a
    property read finds and whose [__proto__] setter a property write
    runs. *)

From Stdlib Require Import String Ascii List ZArith NArith Bool Lia.
From Stdlib Require Import Permutation Sorted.
From Stdlib Require Import Decimal DecimalString DecimalNat DecimalN.
Import ListNotations.
Local Open Scope string_scope.
Set Warnings "-register-all".

(* ===================================================================== *)
(** ** JavaScript values and built-ins *)
(* ===================================================================== *)

Module Js.

(** The values the module handles. Numbers are the integral ones (run
    counts, indices); strings are byte strings; [JFunction] is a built-in
    function of the runtime, by name. *)
Inductive JsValue : Type :=
| JUndefined
| JNull
| JBool (b : bool)
| JNum (n : Z)
| JStr (s : string)
| JArr (items : list JsValue)
| JObj (props : list (string * JsValue))
| JFunction (name : string).

(** [Boolean(v)] and the test of [v && ...]. *)
Definition ToBoolean (v : JsValue) : bool :=
  match v with
  | JUndefined | JNull => false
  | JBool b => b
  | JNum n => negb (n =? 0)%Z
  | JStr s => negb (s =? "")
  | JArr _ | JObj _ | JFunction _ => true
  end.

(** Decimal rendering of an index, as a template literal does it. *)
Definition nat_to_string (n : nat) : string :=
  NilEmpty.string_of_uint (Nat.to_uint n).

(** Decimal rendering of an integral number, for the integers a number
    holds exactly below 1e21 in magnitude; from there on JavaScript prints
    an exponent, which this rendering does not follow. *)
Definition number_to_string (n : Z) : string :=
  NilEmpty.string_of_int (Z.to_int n).

(** [String(v)], the coercion [FormData.set] applies to a value that is not
    a blob. An array renders as its elements joined by commas, with
    [undefined] and [null] elements rendered empty; a built-in function
    renders as V8 prints it. *)
Fixpoint ToString (v : JsValue) : string :=
  match v with
  | JUndefined => "undefined"
  | JNull => "null"
  | JBool true => "true"
  | JBool false => "false"
  | JNum n => number_to_string n
  | JStr s => s
  | JArr items =>
      String.concat ","
        (map (fun x => match x with
                       | JUndefined | JNull => ""
                       | _ => ToString x
                       end) items)
  | JObj _ => "[object Object]"
  | JFunction name => "function " ++ name ++ "() { [native code] }"
  end.

(** *** Arrays of strings *)

Fixpoint indexOf_from (k : Z) (arr : list string) (x : string) : Z :=
  match arr with
  | [] => (-1)%Z
  | y :: rest => if y =? x then k else indexOf_from (k + 1)%Z rest x
  end.

(** [arr.indexOf(x)]: the first position holding [x], or [-1]. *)
Definition Array_indexOf (arr : list string) (x : string) : Z :=
  indexOf_from 0%Z arr x.

(** [arr.includes(x)]. *)
Definition Array_includes (arr : list string) (x : string) : bool :=
  existsb (fun y => y =? x) arr.

Fixpoint join_loop (sep R : string) (k : nat) (elems : list string) : string :=
  match elems with
  | [] => R
  | e :: rest =>
      join_loop sep ((if Nat.eqb k 0 then R else R ++ sep) ++ e) (S k) rest
  end.

(** [elems.join(sep)]: the separator goes before every element but the
    first. *)
Definition Array_join (sep : string) (elems : list string) : string :=
  join_loop sep "" 0 elems.

(** *** Sorting with a comparator

    [arr.sort(comparefn)] as a stable insertion sort: an element goes before
    the first sorted element it does not compare greater than. *)

Fixpoint sort_insert {A : Type} (comparefn : A -> A -> Z) (x : A) (sorted : list A)
  : list A :=
  match sorted with
  | [] => [x]
  | y :: rest =>
      if (comparefn x y <=? 0)%Z then x :: y :: rest
      else y :: sort_insert comparefn x rest
  end.

Definition Array_sort {A : Type} (comparefn : A -> A -> Z) (arr : list A) : list A :=
  fold_right (sort_insert comparefn) [] arr.

(** *** Objects as property lists

    An object is the list of its own properties in enumeration order: array
    indices first, ascending, then the other names in creation order. *)

(** The number a property name denotes when it is an array index: a
    canonical decimal below 2^32 - 1. *)
Definition array_index (k : string) : option N :=
  match NilEmpty.uint_of_string k with
  | Some d =>
      let n := N.of_uint d in
      if (NilEmpty.string_of_uint (N.to_uint n) =? k) && (n <? 4294967295)%N
      then Some n else None
  | None => None
  end.

Section Properties.
Context {V : Type}.

(** Own-property lookup: [Some v] when the object has the property. *)
Fixpoint obj_get (o : list (string * V)) (k : string) : option V :=
  match o with
  | [] => None
  | (k', v) :: rest => if k' =? k then Some v else obj_get rest k
  end.

(** [Object.hasOwn(o, k)]. *)
Definition obj_has (o : list (string * V)) (k : string) : bool :=
  match obj_get o k with Some _ => true | None => false end.

Definition obj_keys (o : list (string * V)) : list string := map fst o.

Fixpoint obj_replace (o : list (string * V)) (k : string) (v : V)
  : list (string * V) :=
  match o with
  | [] => []
  | (k', v') :: rest =>
      if k' =? k then (k, v) :: rest else (k', v') :: obj_replace rest k v
  end.

Fixpoint obj_add_index (o : list (string * V)) (n : N) (k : string) (v : V)
  : list (string * V) :=
  match o with
  | [] => [(k, v)]
  | (k', v') :: rest =>
      match array_index k' with
      | Some n' =>
          if (n' <? n)%N then (k', v') :: obj_add_index rest n k v
          else (k, v) :: o
      | None => (k, v) :: o
      end
  end.

(** [o[k] = v] on an object literal, for a value [v] that is not an object
    (the code writes strings). The name [__proto__] is the accessor of
    [Object.prototype]: its setter ignores such a value and no property is
    created. Otherwise an existing property keeps its place and takes the
    new value; a new one is created, an array index among the indices and
    any other name at the end. *)
Definition obj_set (o : list (string * V)) (k : string) (v : V)
  : list (string * V) :=
  if k =? "__proto__" then o
  else if obj_has o k then obj_replace o k v
  else match array_index k with
       | Some n => obj_add_index o n k v
       | None => o ++ [(k, v)]
       end.

(** [Object.entries(o)]: the own properties, in enumeration order. *)
Definition Object_entries (o : list (string * V)) : list (string * V) := o.

End Properties.

(** The data properties of [Object.prototype], which every object literal
    inherits. *)
Definition Object_prototype : list (string * JsValue) :=
  [ ("constructor", JFunction "Object");
    ("__defineGetter__", JFunction "__defineGetter__");
    ("__defineSetter__", JFunction "__defineSetter__");
    ("hasOwnProperty", JFunction "hasOwnProperty");
    ("__lookupGetter__", JFunction "__lookupGetter__");
    ("__lookupSetter__", JFunction "__lookupSetter__");
    ("isPrototypeOf", JFunction "isPrototypeOf");
    ("propertyIsEnumerable", JFunction "propertyIsEnumerable");
    ("toString", JFunction "toString");
    ("valueOf", JFunction "valueOf");
    ("toLocaleString", JFunction "toLocaleString") ].

(** The names an object literal inherits: the accessor [__proto__] and the
    data properties of [Object.prototype]. *)
Definition inherited_names : list string :=
  "__proto__" :: obj_keys Object_prototype.

(** A property read [o[k]] on an object literal: the own property when
    there is one; else the inherited member, where [__proto__] reads the
    prototype itself; [undefined] when the name is found nowhere. *)
Definition obj_read (o : list (string * JsValue)) (k : string) : JsValue :=
  match obj_get o k with
  | Some v => v
  | None =>
      if k =? "__proto__" then JObj Object_prototype
      else match obj_get Object_prototype k with
           | Some v => v
           | None => JUndefined
           end
  end.

(** *** JSON text of a string-to-string record *)

Definition hex_digit (n : nat) : ascii :=
  ascii_of_nat (if Nat.ltb n 10 then 48 + n else 87 + n).

(** One character of a quoted string: the two-character escapes, [\u00xx]
    for the other control characters, the character itself otherwise. *)
Definition json_escape (c : ascii) : string :=
  let n := nat_of_ascii c in
  let esc (x : string) := String (ascii_of_nat 92) x in
  if Nat.eqb n 8 then esc "b"
  else if Nat.eqb n 9 then esc "t"
  else if Nat.eqb n 10 then esc "n"
  else if Nat.eqb n 12 then esc "f"
  else if Nat.eqb n 13 then esc "r"
  else if Nat.eqb n 34 then esc (String c "")
  else if Nat.eqb n 92 then esc (String c "")
  else if Nat.ltb n 32 then
    esc ("u00" ++ String (hex_digit (n / 16)) (String (hex_digit (n mod 16)) ""))
  else String c "".

Fixpoint json_escape_all (s : string) : string :=
  match s with
  | EmptyString => ""
  | String c rest => json_escape c ++ json_escape_all rest
  end.

Definition json_quote (s : string) : string :=
  let q := String (ascii_of_nat 34) "" in
  q ++ json_escape_all s ++ q.

(** [JSON.stringify(o)] for a record whose values are strings. *)
Definition JSON_stringify (o : list (string * string)) : string :=
  "{" ++ String.concat ","
           (map (fun kv => json_quote (fst kv) ++ ":" ++ json_quote (snd kv))
                (Object_entries o))
      ++ "}".

End Js.

(* ===================================================================== *)
(** ** The browser's [File] and [FormData] *)
(* ===================================================================== *)

Module File.
(** A file of the source list: the builder reads its [name]. *)
Record t : Type := { name : string; content : string }.
End File.

Module WebFormData.
Import Js.

(** An entry's value: a string, or a file under the name it was given. *)
Inductive EntryValue : Type :=
| FDString (s : string)
| FDFile (file : File.t) (filename : string).

(** The entry list, in order. *)
Definition t : Type := list (string * EntryValue).

Definition empty : t := [].

Definition remove_all (name : string) (body : t) : t :=
  filter (fun e => negb (fst e =? name)) body.

(** "Set an entry": the first entry of that name is replaced and the others
    of that name removed; without one the entry is appended. *)
Fixpoint set_entry (body : t) (name : string) (value : EntryValue) : t :=
  match body with
  | [] => [(name, value)]
  | (n, v) :: rest =>
      if n =? name then (name, value) :: remove_all name rest
      else (n, v) :: set_entry rest name value
  end.

(** [body.set(name, value)] with a value that is not a blob: it is stored
    as its string. *)
Definition set (body : t) (name : string) (value : JsValue) : t :=
  set_entry body name (FDString (ToString value)).

(** [body.set(name, file, filename)]. *)
Definition set_file (body : t) (name : string) (file : File.t) (filename : string) : t :=
  set_entry body name (FDFile file filename).

(** [body.get(name)]: the first value under that name. *)
Fixpoint get (body : t) (name : string) : option EntryValue :=
  match body with
  | [] => None
  | (n, v) :: rest => if n =? name then Some v else get rest name
  end.

(** [body.has(name)]. *)
Definition has (body : t) (name : string) : bool :=
  existsb (fun e => fst e =? name) body.

Definition is_file (v : EntryValue) : bool :=
  match v with FDFile _ _ => true | FDString _ => false end.

(** The entries that carry a file, in order. *)
Definition file_entries (body : t) : t :=
  filter (fun e => is_file (snd e)) body.

End WebFormData.

(* ===================================================================== *)
(** ** ui/contractVerification/utils.ts *)
(* ===================================================================== *)

Module SelectOption.
(** Modelled from the spec: the select option of ./types (a compiler, an
    EVM version, a method or a chosen contract), of which the code reads
    [value]; the defaults give a method its [value] and [label]. *)
Record t : Type := { value : string; label : string }.
End SelectOption.

Module ContractLibrary.
(** Modelled from the spec: the [ContractLibrary] of ./types, a library
    name and the address it is deployed at. *)
Record t : Type := { name : string; address : string }.
End ContractLibrary.

Module Verification.
Import Js.

(** Modelled from the spec: the [FormFields] union of ./types, as the
    object [prepareRequestBody] reads through its six casts. The casts
    check nothing, so one record holds every field a branch reads; a branch
    ignores the fields of the other variants. [None] stands for a field
    that is [null] or absent. *)
Record FormFields : Type := {
  method : SelectOption.t;
  is_yul : bool;
  name : string;
  compiler : option SelectOption.t;
  evm_version : option SelectOption.t;
  is_optimization_enabled : bool;
  optimization_runs : JsValue;
  code : string;
  autodetect_constructor_args : bool;
  constructor_args : string;
  libraries : option (list ContractLibrary.t);
  sources : option (list File.t);
  contract_index : option SelectOption.t;
}.

(** [FetchParams['body']]: a plain object or a [FormData]. *)
Inductive RequestBody : Type :=
| PlainBody (fields : list (string * JsValue))
| MultipartBody (body : WebFormData.t).

Definition SUPPORTED_VERIFICATION_METHODS : list string :=
  [ "flattened-code";
    "standard-input";
    "sourcify";
    "multi-part";
    "vyper-code";
    "vyper-multi-part" ].

Definition METHOD_LABELS : list (string * JsValue) :=
  [ ("flattened-code", JStr "Solidity (Flattened source code)");
    ("standard-input", JStr "Solidity (Standard JSON input)");
    ("sourcify", JStr "Solidity (Sourcify)");
    ("multi-part", JStr "Solidity (Multi-part files)");
    ("vyper-code", JStr "Vyper (Contract)");
    ("vyper-multi-part", JStr "Vyper (Multi-part files)") ].

Definition method_option (tag : string) : JsValue :=
  JObj [ ("value", JStr tag); ("label", obj_read METHOD_LABELS tag) ].

Definition DEFAULT_VALUES : list (string * JsValue) :=
  [ ("flattened-code", JObj
      [ ("method", method_option "flattened-code");
        ("is_yul", JBool false);
        ("name", JStr "");
        ("compiler", JNull);
        ("evm_version", JNull);
        ("is_optimization_enabled", JBool true);
        ("optimization_runs", JStr "200");
        ("code", JStr "");
        ("autodetect_constructor_args", JBool true);
        ("constructor_args", JStr "");
        ("libraries", JArr []) ]);
    ("standard-input", JObj
      [ ("method", method_option "standard-input");
        ("name", JStr "");
        ("compiler", JNull);
        ("sources", JArr []);
        ("autodetect_constructor_args", JBool true);
        ("constructor_args", JStr "") ]);
    ("sourcify", JObj
      [ ("method", method_option "sourcify");
        ("sources", JArr []) ]);
    ("multi-part", JObj
      [ ("method", method_option "multi-part");
        ("compiler", JNull);
        ("evm_version", JNull);
        ("is_optimization_enabled", JBool true);
        ("optimization_runs", JNum 200);
        ("sources", JArr []);
        ("libraries", JArr []) ]);
    ("vyper-code", JObj
      [ ("method", method_option "vyper-code");
        ("name", JStr "");
        ("compiler", JNull);
        ("code", JStr "");
        ("constructor_args", JStr "") ]);
    ("vyper-multi-part", JObj
      [ ("method", method_option "vyper-multi-part");
        ("compiler", JNull);
        ("evm_version", JNull);
        ("sources", JArr []) ]) ].

(** [method] is optional: [None] is a call without it. *)
Definition isValidVerificationMethod (method : option string) : bool :=
  match method with
  | None => false
  | Some m =>
      if ToBoolean (JStr m) && Array_includes SUPPORTED_VERIFICATION_METHODS m
      then true else false
  end.

Definition sortVerificationMethods (methodA methodB : string) : Z :=
  let indexA := Array_indexOf SUPPORTED_VERIFICATION_METHODS methodA in
  let indexB := Array_indexOf SUPPORTED_VERIFICATION_METHODS methodB in
  if (indexA >? indexB)%Z then 1%Z
  else if (indexA <? indexB)%Z then (-1)%Z
  else 0%Z.

(** [undefined] (here [None]) for a missing or empty list, else the object
    that maps each name to its address. *)
Definition reduceLibrariesArray (libraries : option (list ContractLibrary.t))
  : option (list (string * string)) :=
  match libraries with
  | None => None
  | Some [] => None
  | Some libs =>
      Some (fold_left
              (fun result item =>
                 obj_set result (ContractLibrary.name item) (ContractLibrary.address item))
              libs [])
  end.

(** The key of the template literal [files[${ index }]]. *)
Definition files_key (index : nat) : string :=
  "files[" ++ nat_to_string index ++ "]".

Fixpoint addFiles_loop (body : WebFormData.t) (index : nat) (files : list File.t)
  : WebFormData.t :=
  match files with
  | [] => body
  | file :: rest =>
      addFiles_loop
        (WebFormData.set_file body (files_key index) file (File.name file))
        (S index) rest
  end.

Definition addFilesToFormData (body : WebFormData.t) (files : option (list File.t))
  : WebFormData.t :=
  match files with
  | None => body
  | Some fs => addFiles_loop body 0 fs
  end.

(** [o?.value]. *)
Definition value_of (o : option SelectOption.t) : JsValue :=
  match o with
  | Some x => JStr (SelectOption.value x)
  | None => JUndefined
  end.

(** The value of a record (or of [undefined]) as a body field. *)
Definition record_value (r : option (list (string * string))) : JsValue :=
  match r with
  | Some o => JObj (map (fun kv => (fst kv, JStr (snd kv))) o)
  | None => JUndefined
  end.

Definition prepareRequestBody (data : FormFields) : RequestBody :=
  let tag := SelectOption.value (method data) in
  if tag =? "flattened-code" then
    PlainBody
      [ ("compiler_version", value_of (compiler data));
        ("source_code", JStr (code data));
        ("is_optimization_enabled", JBool (is_optimization_enabled data));
        ("is_yul_contract", JBool (is_yul data));
        ("optimization_runs", optimization_runs data);
        ("contract_name", JStr (name data));
        ("libraries", record_value (reduceLibrariesArray (libraries data)));
        ("evm_version", value_of (evm_version data));
        ("autodetect_constructor_args", JBool (autodetect_constructor_args data));
        ("constructor_args", JStr (constructor_args data)) ]
  else if tag =? "standard-input" then
    let body := WebFormData.empty in
    let body := WebFormData.set body "compiler_version" (value_of (compiler data)) in
    let body := WebFormData.set body "contract_name" (JStr (name data)) in
    let body := WebFormData.set body "autodetect_constructor_args"
                  (JStr (ToString (JBool (ToBoolean (JBool (autodetect_constructor_args data)))))) in
    let body := WebFormData.set body "constructor_args" (JStr (constructor_args data)) in
    let body := addFilesToFormData body (sources data) in
    MultipartBody body
  else if tag =? "sourcify" then
    let body := WebFormData.empty in
    let body := addFilesToFormData body (sources data) in
    let body := match contract_index data with
                | Some chosen =>
                    WebFormData.set body "chosen_contract_index"
                      (JStr (SelectOption.value chosen))
                | None => body
                end in
    MultipartBody body
  else if tag =? "multi-part" then
    let body := WebFormData.empty in
    let body := WebFormData.set body "compiler_version" (value_of (compiler data)) in
    let body := WebFormData.set body "evm_version" (value_of (evm_version data)) in
    let body := WebFormData.set body "is_optimization_enabled"
                  (JStr (ToString (JBool (ToBoolean (JBool (is_optimization_enabled data)))))) in
    let body := if ToBoolean (JBool (is_optimization_enabled data))
                then WebFormData.set body "optimization_runs" (optimization_runs data)
                else body in
    let libraries := reduceLibrariesArray (libraries data) in
    let body := match libraries with
                | Some o => WebFormData.set body "libraries" (JStr (JSON_stringify o))
                | None => body
                end in
    let body := addFilesToFormData body (sources data) in
    MultipartBody body
  else if tag =? "vyper-code" then
    PlainBody
      [ ("compiler_version", value_of (compiler data));
        ("source_code", JStr (code data));
        ("contract_name", JStr (name data));
        ("constructor_args", JStr (constructor_args data)) ]
  else if tag =? "vyper-multi-part" then
    let body := WebFormData.empty in
    let body := WebFormData.set body "compiler_version" (value_of (compiler data)) in
    let body := WebFormData.set body "evm_version" (value_of (evm_version data)) in
    let body := addFilesToFormData body (sources data) in
    MultipartBody body
  else PlainBody [].

Definition API_ERROR_TO_FORM_FIELD : list (string * JsValue) :=
  [ ("contract_source_code", JStr "code");
    ("files", JStr "sources");
    ("compiler_version", JStr "compiler");
    ("constructor_arguments", JStr "constructor_args");
    ("name", JStr "name") ].

(** react-hook-form's [ErrorOption], of which only [message] is given. *)
Record ErrorOption : Type := { message : string }.

(** The payload is an object from backend field names to message lists. *)
Definition formatSocketErrors (errors : list (string * list string))
  : list (JsValue * ErrorOption) :=
  map (fun entry =>
         let key := fst entry in
         let value := snd entry in
         (obj_read API_ERROR_TO_FORM_FIELD key, {| message := Array_join "," value |}))
      (Object_entries errors).

End Verification.

(* ===================================================================== *)
(** ** Reference values used in the statements *)
(* ===================================================================== *)

Module Expected.
Import Js Verification.

(** The method tag a form carries. *)
Definition tag (data : FormFields) : string := SelectOption.value (method data).

(** The source list of a form, empty when the field is absent. *)
Definition source_list (data : FormFields) : list File.t :=
  match sources data with Some fs => fs | None => [] end.

(** The file entries for [files], numbered from [start]: the file at
    position [i] under [files[start + i]], with its own name. *)
Definition indexed_files (start : nat) (files : list File.t) : WebFormData.t :=
  map (fun p => (files_key (fst p), WebFormData.FDFile (snd p) (File.name (snd p))))
      (combine (seq start (length files)) files).

(** The scalar a select field is stored as in a multipart body. *)
Definition stored_scalar (o : option SelectOption.t) : WebFormData.EntryValue :=
  WebFormData.FDString
    (match o with Some x => SelectOption.value x | None => "undefined" end).

(** The fields each branch of [prepareRequestBody] reads off the form,
    [method] apart. *)
Definition fields_read (method_tag : string) : list string :=
  if method_tag =? "flattened-code" then
    [ "compiler"; "code"; "is_optimization_enabled"; "is_yul"; "optimization_runs";
      "name"; "libraries"; "evm_version"; "autodetect_constructor_args";
      "constructor_args" ]
  else if method_tag =? "standard-input" then
    [ "compiler"; "name"; "autodetect_constructor_args"; "constructor_args"; "sources" ]
  else if method_tag =? "sourcify" then
    [ "sources"; "contract_index" ]
  else if method_tag =? "multi-part" then
    [ "compiler"; "evm_version"; "is_optimization_enabled"; "optimization_runs";
      "libraries"; "sources" ]
  else if method_tag =? "vyper-code" then
    [ "compiler"; "code"; "name"; "constructor_args" ]
  else if method_tag =? "vyper-multi-part" then
    [ "compiler"; "evm_version"; "sources" ]
  else [].

(** A sample form of the given method: no compiler or EVM version chosen,
    optimization enabled with 200 runs, and the given library and source
    lists. *)
Definition form (method_tag : string) (libs : option (list ContractLibrary.t))
  (files : option (list File.t)) : FormFields :=
  {| method := {| SelectOption.value := method_tag; SelectOption.label := "" |};
     is_yul := false;
     name := "";
     compiler := None;
     evm_version := None;
     is_optimization_enabled := true;
     optimization_runs := JStr "200";
     code := "";
     autodetect_constructor_args := true;
     constructor_args := "";
     libraries := libs;
     sources := files;
     contract_index := None |}.

(** The address of the last entry of [libs] named [n], if any. *)
Fixpoint last_address (libs : list ContractLibrary.t) (n : string) : option string :=
  match libs with
  | [] => None
  | item :: rest =>
      match last_address rest n with
      | Some a => Some a
      | None =>
          if ContractLibrary.name item =? n
          then Some (ContractLibrary.address item) else None
      end
  end.

(** One step of the reduction in [reduceLibrariesArray]. *)
Definition add_library (result : list (string * string)) (item : ContractLibrary.t)
  : list (string * string) :=
  obj_set result (ContractLibrary.name item) (ContractLibrary.address item).

(** The place of a tag in the canonical list, [-1] for a string that is
    not in it. *)
Definition position (m : string) : Z :=
  Array_indexOf SUPPORTED_VERIFICATION_METHODS m.

Definition library (n a : string) : ContractLibrary.t :=
  {| ContractLibrary.name := n; ContractLibrary.address := a |}.

Definition source_file (n : string) : File.t :=
  {| File.name := n; File.content := "" |}.

End Expected.

(* ===================================================================== *)
(** ** The API resource registry *)
(* ===================================================================== *)

Module Resources.
Import Js.

(** Modelled from the spec: the [statsApi] part of configs/app/config, of
    which the registry reads [endpoint] and [basePath]; either may be
    undefined. *)
Record StatsApi : Type := {
  statsApi_endpoint : option string;
  statsApi_basePath : option string;
}.

(** An entry of [RESOURCES]: the [ApiResource] fields and the two field
    lists a paginated entry adds. [None] is a property the entry lacks. *)
Record ApiResource : Type := {
  path : string;
  endpoint : option string;
  basePath : option string;
  paginationFields : option (list string);
  filterFields : option (list string);
}.

Definition plain (p : string) : ApiResource :=
  {| path := p; endpoint := None; basePath := None;
     paginationFields := None; filterFields := None |}.

Definition stats (statsApi : StatsApi) (p : string) : ApiResource :=
  {| path := p;
     endpoint := statsApi_endpoint statsApi;
     basePath := statsApi_basePath statsApi;
     paginationFields := None; filterFields := None |}.

Definition paginated (p : string) (pagination filters : list string) : ApiResource :=
  {| path := p; endpoint := None; basePath := None;
     paginationFields := Some pagination; filterFields := Some filters |}.

Definition RESOURCES (statsApi : StatsApi) : list (string * ApiResource) :=
  [ ("csrf", plain "/api/account/v1/get_csrf");
    ("user_info", plain "/api/account/v1/user/info");
    ("custom_abi", plain "/api/account/v1/user/custom_abis/:id?");
    ("watchlist", plain "/api/account/v1/user/watchlist/:id?");
    ("public_tags", plain "/api/account/v1/user/public_tags/:id?");
    ("private_tags_address", plain "/api/account/v1/user/tags/address/:id?");
    ("private_tags_tx", plain "/api/account/v1/user/tags/transaction/:id?");
    ("api_keys", plain "/api/account/v1/user/api_keys/:id?");
    ("stats_counters", stats statsApi "/api/v1/counters");
    ("stats_charts", stats statsApi "/api/v1/charts/line");
    ("blocks", paginated "/api/v2/blocks" ["block_number"; "items_count"] ["type"]);
    ("block", plain "/api/v2/blocks/:id");
    ("block_txs", paginated "/api/v2/blocks/:id/transactions"
                    ["block_number"; "items_count"; "index"] []);
    ("txs_validated", paginated "/api/v2/transactions"
                        ["block_number"; "items_count"; "filter"; "index"]
                        ["filter"; "type"; "method"]);
    ("txs_pending", paginated "/api/v2/transactions"
                      ["filter"; "hash"; "inserted_at"]
                      ["filter"; "type"; "method"]);
    ("tx", plain "/api/v2/transactions/:id");
    ("tx_internal_txs", paginated "/api/v2/transactions/:id/internal-transactions"
                          ["block_number"; "items_count"; "transaction_hash"; "index";
                           "transaction_index"] []);
    ("tx_logs", paginated "/api/v2/transactions/:id/logs"
                  ["items_count"; "transaction_hash"; "index"] []);
    ("tx_token_transfers", paginated "/api/v2/transactions/:id/token-transfers"
                             ["block_number"; "items_count"; "transaction_hash"; "index"]
                             ["type"]);
    ("tx_raw_trace", plain "/api/v2/transactions/:id/raw-trace");
    ("address", plain "/api/v2/addresses/:id");
    ("address_counters", plain "/api/v2/addresses/:id/counters");
    ("address_token_balances", plain "/api/v2/addresses/:id/token-balances");
    ("address_txs", paginated "/api/v2/addresses/:id/transactions"
                      ["block_number"; "items_count"; "index"] ["filter"]);
    ("address_internal_txs", paginated "/api/v2/addresses/:id/internal-transactions"
                               ["block_number"; "items_count"; "index"; "transaction_index"]
                               ["filter"]);
    ("address_token_transfers", paginated "/api/v2/addresses/:id/token-transfers"
                                  ["block_number"; "items_count"; "index";
                                   "transaction_index"]
                                  ["filter"; "type"]);
    ("address_blocks_validated", paginated "/api/v2/addresses/:id/blocks-validated"
                                   ["items_count"; "block_number"] []);
    ("address_coin_balance", paginated "/api/v2/addresses/:id/coin-balance-history"
                               ["items_count"; "block_number"] []);
    ("address_coin_balance_chart",
       plain "/api/v2/addresses/:id/coin-balance-history-by-day");
    ("address_logs", paginated "/api/v2/addresses/:id/logs"
                       ["items_count"; "transaction_index"; "index"; "block_number"] []);
    ("contract", plain "/api/v2/smart-contracts/:id");
    ("token", plain "/api/v2/tokens/:hash");
    ("token_counters", plain "/api/v2/tokens/:hash/counters");
    ("token_holders", paginated "/api/v2/tokens/:hash/holders"
                        ["items_count"; "value"] []);
    ("homepage_stats", plain "/api/v2/stats");
    ("homepage_chart_txs", plain "/api/v2/stats/charts/transactions");
    ("homepage_chart_market", plain "/api/v2/stats/charts/market");
    ("homepage_blocks", plain "/api/v2/main-page/blocks");
    ("homepage_txs", plain "/api/v2/main-page/transactions");
    ("homepage_indexing_status", plain "/api/v2/main-page/indexing-status");
    ("old_api", plain "/api") ].

(** The members of the union type [PaginatedResources]. *)
Definition PaginatedResources : list string :=
  [ "blocks"; "block_txs";
    "txs_validated"; "txs_pending";
    "tx_internal_txs"; "tx_logs"; "tx_token_transfers";
    "address_txs"; "address_internal_txs"; "address_token_transfers";
    "address_blocks_validated"; "address_coin_balance";
    "address_logs";
    "token_holders" ].

(** The resources for which the conditional type [PaginationFilters] names
    a filter type (it is [never] for the others). *)
Definition PaginationFilters : list string :=
  [ "blocks";
    "txs_validated"; "txs_pending";
    "tx_token_transfers";
    "address_txs"; "address_internal_txs";
    "address_token_transfers" ].

(** [ResourcePaginationKey<R>]: the pagination fields of the resource, none
    for a resource without the list (the type is [never]). *)
Definition ResourcePaginationKey (statsApi : StatsApi) (R : string) : list string :=
  match obj_get (RESOURCES statsApi) R with
  | Some r => match paginationFields r with Some fields => fields | None => [] end
  | None => []
  end.

(** [ResourceFiltersKey<R>], likewise for the filter fields. *)
Definition ResourceFiltersKey (statsApi : StatsApi) (R : string) : list string :=
  match obj_get (RESOURCES statsApi) R with
  | Some r => match filterFields r with Some fields => fields | None => [] end
  | None => []
  end.

End Resources.

(* ===================================================================== *)
(** ** Reference values for the wire format *)
(* ===================================================================== *)

Module Wire.
Import Js Verification Expected.

Definition is_multipart (body : RequestBody) : bool :=
  match body with MultipartBody _ => true | PlainBody _ => false end.

(** The field names of a body, in order. *)
Definition body_keys (body : RequestBody) : list string :=
  match body with
  | PlainBody fields => map fst fields
  | MultipartBody entries => map fst entries
  end.

(** The scalar keys a file-bearing method sets before its files. *)
Definition scalar_keys (data : FormFields) : list string :=
  if tag data =? "standard-input" then
    [ "compiler_version"; "contract_name"; "autodetect_constructor_args";
      "constructor_args" ]
  else if tag data =? "multi-part" then
    ([ "compiler_version"; "evm_version"; "is_optimization_enabled" ]
     ++ (if is_optimization_enabled data then ["optimization_runs"] else [])
     ++ (match libraries data with
         | Some (_ :: _) => ["libraries"]
         | _ => []
         end))%list
  else if tag data =? "vyper-multi-part" then
    [ "compiler_version"; "evm_version" ]
  else [].

(** The key set after the files: the chosen contract index of sourcify. *)
Definition trailing_keys (data : FormFields) : list string :=
  if tag data =? "sourcify" then
    match contract_index data with
    | Some _ => ["chosen_contract_index"]
    | None => []
    end
  else [].

(** The keys of a multipart body, in order. *)
Definition multipart_keys (data : FormFields) : list string :=
  (scalar_keys data
   ++ map files_key (seq 0 (length (source_list data)))
   ++ trailing_keys data)%list.

(** Every scalar key [prepareRequestBody] sets in a multipart body. *)
Definition multipart_scalar_names : list string :=
  [ "compiler_version"; "contract_name"; "autodetect_constructor_args";
    "constructor_args"; "chosen_contract_index"; "evm_version";
    "is_optimization_enabled"; "optimization_runs"; "libraries" ].

(** The text a boolean is stored as. *)
Definition boolean_text (b : bool) : string := if b then "true" else "false".

(** The form fields an error can be attached to. *)
Definition error_fields : list JsValue :=
  [ JStr "code"; JStr "sources"; JStr "compiler"; JStr "constructor_args";
    JStr "name" ].

Definition error_keys : list string :=
  [ "contract_source_code"; "files"; "compiler_version"; "constructor_arguments";
    "name" ].

(** A library list as the object that has one property per entry, in list
    order. *)
Definition as_record (libs : list ContractLibrary.t) : list (string * string) :=
  map (fun item => (ContractLibrary.name item, ContractLibrary.address item)) libs.

End Wire.

(* ===================================================================== *)
(** ** A reference decoder for JSON records *)
(* ===================================================================== *)

(** The decoder reads the JSON text of an object whose values are strings,
    with no white space, as [JSON.stringify] writes it. It serves to say
    which mapping a text stands for. *)
Module JsonText.









End JsonText.

(* ===================================================================== *)
(** ** Proof automation *)
(* ===================================================================== *)

(** Closes [k <> files_key j] for a literal [k]: the two differ in their
    first characters. *)
Ltac not_files_key :=
  let j := fresh "j" in
  let H := fresh "H" in
  intros j H; unfold Verification.files_key in H; simpl in H; discriminate H.

(** Decides a test between two strings in the goal. *)
Ltac case_eqb k k' :=
  destruct (String.eqb_spec k k'); subst; try congruence.

(* ===================================================================== *)
(** ** Strings and keys *)
(* ===================================================================== *)

Section Strings.

Lemma append_empty_r (s : string) : s ++ "" = s.
Proof. induction s as [|c s IH]; simpl; [reflexivity | now rewrite IH]. Qed.

Lemma append_assoc (s1 s2 s3 : string) : (s1 ++ s2) ++ s3 = s1 ++ (s2 ++ s3).
Proof. induction s1 as [|c s1 IH]; simpl; [reflexivity | now rewrite IH]. Qed.

Lemma length_append (s1 s2 : string) :
  String.length (s1 ++ s2) = String.length s1 + String.length s2.
Proof. induction s1 as [|c s1 IH]; simpl; [reflexivity | now rewrite IH]. Qed.

Lemma append_cancel_r (t s1 s2 : string) : s1 ++ t = s2 ++ t -> s1 = s2.
Proof.
  revert s2; induction s1 as [|c s1 IH]; intros [|d s2] H; simpl in H.
  - reflexivity.
  - apply (f_equal String.length) in H; simpl in H.
    rewrite length_append in H; lia.
  - apply (f_equal String.length) in H; simpl in H.
    rewrite length_append in H; lia.
  - injection H as -> H. f_equal. now apply IH.
Qed.

Lemma nat_to_string_inj (i j : nat) :
  Js.nat_to_string i = Js.nat_to_string j -> i = j.
Proof.
  unfold Js.nat_to_string; intros H.
  apply (f_equal NilEmpty.uint_of_string) in H.
  rewrite !NilEmpty.usu in H. injection H as H.
  apply (f_equal Nat.of_uint) in H.
  now rewrite !DecimalNat.Unsigned.of_to in H.
Qed.

Lemma files_key_inj (i j : nat) :
  Verification.files_key i = Verification.files_key j -> i = j.
Proof.
  unfold Verification.files_key; simpl; intros H.
  injection H as H.
  now apply nat_to_string_inj, (append_cancel_r "]").
Qed.

Lemma files_key_eqb (i j : nat) :
  (Verification.files_key i =? Verification.files_key j) = Nat.eqb i j.
Proof.
  destruct (Nat.eqb_spec i j) as [->|Hne].
  - apply String.eqb_refl.
  - apply String.eqb_neq. intros H. now apply files_key_inj in H.
Qed.

End Strings.

(* ===================================================================== *)
(** ** Facts about [FormData] *)
(* ===================================================================== *)

Section FormDataFacts.
Import WebFormData.

Lemma get_remove_all_ne (body : t) (k k' : string) :
  k <> k' -> get (remove_all k body) k' = get body k'.
Proof.
  intros Hne; induction body as [|[n v] rest IH]; simpl; [reflexivity|].
  case_eqb n k; simpl.
  - case_eqb k k'; auto.
  - case_eqb n k'; auto.
Qed.

Lemma get_set_entry_eq (body : t) (k : string) (v : EntryValue) :
  get (set_entry body k v) k = Some v.
Proof.
  induction body as [|[n w] rest IH]; simpl.
  - now rewrite String.eqb_refl.
  - case_eqb n k; simpl.
    + now rewrite String.eqb_refl.
    + case_eqb n k; auto.
Qed.

Lemma get_set_entry_ne (body : t) (k k' : string) (v : EntryValue) :
  k <> k' -> get (set_entry body k v) k' = get body k'.
Proof.
  intros Hne; induction body as [|[n w] rest IH]; simpl.
  - case_eqb k k'; auto.
  - case_eqb n k; simpl.
    + case_eqb k k'; auto using get_remove_all_ne.
    + case_eqb n k'; auto.
Qed.

Lemma has_cons (n : string) (v : EntryValue) (rest : t) (k : string) :
  has ((n, v) :: rest) k = (n =? k) || has rest k.
Proof. reflexivity. Qed.

Lemma get_cons (n : string) (v : EntryValue) (rest : t) (k : string) :
  get ((n, v) :: rest) k = if n =? k then Some v else get rest k.
Proof. reflexivity. Qed.

Lemma has_get (body : t) (k : string) :
  has body k = match get body k with Some _ => true | None => false end.
Proof.
  induction body as [|[n w] rest IH]; simpl; [reflexivity|].
  case_eqb n k; auto.
Qed.

Lemma has_app (b1 b2 : t) (k : string) : has (b1 ++ b2)%list k = has b1 k || has b2 k.
Proof. apply existsb_app. Qed.

Lemma get_app (b1 b2 : t) (k : string) :
  get (b1 ++ b2)%list k = match get b1 k with Some v => Some v | None => get b2 k end.
Proof.
  induction b1 as [|[n w] rest IH]; simpl; [reflexivity|].
  case_eqb n k; auto.
Qed.

Lemma set_entry_fresh (body : t) (k : string) (v : EntryValue) :
  has body k = false -> set_entry body k v = (body ++ [(k, v)])%list.
Proof.
  induction body as [|[n w] rest IH]; simpl; [reflexivity|].
  case_eqb n k; simpl; [discriminate|].
  intros H; now rewrite IH.
Qed.

Lemma file_entries_app (b1 b2 : t) :
  file_entries (b1 ++ b2)%list = (file_entries b1 ++ file_entries b2)%list.
Proof. apply filter_app. Qed.

End FormDataFacts.

(* ===================================================================== *)
(** ** Facts about [addFilesToFormData] *)
(* ===================================================================== *)

Section FileAttachment.
Import WebFormData Verification Expected.

(** Attaching files leaves every other key as it was. *)
Lemma get_addFiles_loop (files : list File.t) (body : t) (i : nat) (k : string) :
  (forall j, k <> files_key j) -> get (addFiles_loop body i files) k = get body k.
Proof.
  intros Hk; revert body i; induction files as [|file rest IH]; intros body i; simpl.
  - reflexivity.
  - rewrite IH. unfold set_file. apply get_set_entry_ne.
    intros E; now apply (Hk i).
Qed.

Lemma get_addFilesToFormData (files : option (list File.t)) (body : t) (k : string) :
  (forall j, k <> files_key j) -> get (addFilesToFormData body files) k = get body k.
Proof.
  intros Hk; destruct files as [fs|]; simpl; [now apply get_addFiles_loop | reflexivity].
Qed.

Lemma has_addFilesToFormData (files : option (list File.t)) (body : t) (k : string) :
  (forall j, k <> files_key j) -> has (addFilesToFormData body files) k = has body k.
Proof. intros Hk; rewrite !has_get. now rewrite get_addFilesToFormData. Qed.

Lemma indexed_files_cons (start : nat) (file : File.t) (rest : list File.t) :
  indexed_files start (file :: rest)
  = (files_key start, FDFile file (File.name file)) :: indexed_files (S start) rest.
Proof. reflexivity. Qed.

Lemma has_indexed_files_below (files : list File.t) (start j : nat) :
  j < start -> has (indexed_files start files) (files_key j) = false.
Proof.
  revert start; induction files as [|file rest IH]; intros start Hlt; [reflexivity|].
  rewrite indexed_files_cons, has_cons, files_key_eqb.
  destruct (Nat.eqb_spec start j); [lia|].
  apply IH; lia.
Qed.

Lemma has_indexed_files_other (files : list File.t) (start : nat) (k : string) :
  (forall j, k <> files_key j) -> has (indexed_files start files) k = false.
Proof.
  intros Hk; revert start; induction files as [|file rest IH]; intros start; [reflexivity|].
  rewrite indexed_files_cons, has_cons.
  destruct (String.eqb_spec (files_key start) k) as [E|E]; [|apply IH].
  now destruct (Hk start).
Qed.

(** On a body that holds none of the keys to come, the loop appends one
    entry per file. *)
Lemma addFiles_loop_fresh (files : list File.t) (body : t) (start : nat) :
  (forall j, start <= j -> has body (files_key j) = false) ->
  addFiles_loop body start files = (body ++ indexed_files start files)%list.
Proof.
  revert body start; induction files as [|file rest IH]; intros body start Hfresh.
  - simpl. now rewrite app_nil_r.
  - simpl addFiles_loop. unfold set_file.
    rewrite set_entry_fresh by (apply Hfresh; lia).
    rewrite IH.
    + rewrite <- app_assoc. reflexivity.
    + intros j Hj. rewrite has_app, Hfresh, has_cons, files_key_eqb by lia.
      destruct (Nat.eqb_spec start j); [lia | reflexivity].
Qed.

Lemma file_entries_indexed_files (files : list File.t) (start : nat) :
  file_entries (indexed_files start files) = indexed_files start files.
Proof.
  revert start; induction files as [|file rest IH]; intros start; [reflexivity|].
  rewrite indexed_files_cons. unfold file_entries in *; simpl. now rewrite IH.
Qed.

Lemma length_indexed_files (files : list File.t) (start : nat) :
  length (indexed_files start files) = length files.
Proof.
  unfold indexed_files. rewrite length_map, length_combine, length_seq. lia.
Qed.

Lemma get_indexed_files (files : list File.t) (start i : nat) (file : File.t) :
  nth_error files i = Some file ->
  get (indexed_files start files) (files_key (start + i))
  = Some (FDFile file (File.name file)).
Proof.
  revert start i; induction files as [|f rest IH]; intros start [|i] H; simpl in H;
    try discriminate.
  - injection H as ->.
    now rewrite indexed_files_cons, Nat.add_0_r, get_cons, String.eqb_refl.
  - rewrite indexed_files_cons, get_cons, files_key_eqb.
    destruct (Nat.eqb_spec start (start + S i)); [lia|].
    replace (start + S i) with (S start + i) by lia. now apply IH.
Qed.

End FileAttachment.

(* ===================================================================== *)
(** ** The branches of [prepareRequestBody] *)
(* ===================================================================== *)

Section Branches.
Import Js WebFormData Verification Expected.

Variable data : FormFields.

(** The scalar part of the multi-part body, before the files are added. *)
Lemma prepareRequestBody_multi_part :
  tag data = "multi-part" ->
  prepareRequestBody data
  = MultipartBody
      (addFilesToFormData
         (let body := [ ("compiler_version", stored_scalar (compiler data));
                        ("evm_version", stored_scalar (evm_version data));
                        ("is_optimization_enabled",
                         FDString (ToString (JBool (is_optimization_enabled data)))) ] in
          let body := if is_optimization_enabled data
                      then set body "optimization_runs" (optimization_runs data)
                      else body in
          match reduceLibrariesArray (libraries data) with
          | Some o => set body "libraries" (JStr (JSON_stringify o))
          | None => body
          end)
         (sources data)).
Proof.
  unfold tag, prepareRequestBody; intros ->; simpl.
  destruct (compiler data), (evm_version data); reflexivity.
Qed.

Lemma prepareRequestBody_standard_input :
  tag data = "standard-input" ->
  prepareRequestBody data
  = MultipartBody
      (addFilesToFormData
         [ ("compiler_version", stored_scalar (compiler data));
           ("contract_name", FDString (name data));
           ("autodetect_constructor_args",
            FDString (ToString (JBool (autodetect_constructor_args data))));
           ("constructor_args", FDString (constructor_args data)) ]
         (sources data)).
Proof.
  unfold tag, prepareRequestBody; intros ->; simpl.
  destruct (compiler data); reflexivity.
Qed.

Lemma prepareRequestBody_vyper_multi_part :
  tag data = "vyper-multi-part" ->
  prepareRequestBody data
  = MultipartBody
      (addFilesToFormData
         [ ("compiler_version", stored_scalar (compiler data));
           ("evm_version", stored_scalar (evm_version data)) ]
         (sources data)).
Proof.
  unfold tag, prepareRequestBody; intros ->; simpl.
  destruct (compiler data), (evm_version data); reflexivity.
Qed.

Lemma prepareRequestBody_sourcify :
  tag data = "sourcify" ->
  prepareRequestBody data
  = MultipartBody
      (let body := addFilesToFormData empty (sources data) in
       match contract_index data with
       | Some chosen => set body "chosen_contract_index" (JStr (SelectOption.value chosen))
       | None => body
       end).
Proof. unfold tag, prepareRequestBody; intros ->; reflexivity. Qed.

Lemma prepareRequestBody_flattened_code :
  tag data = "flattened-code" ->
  prepareRequestBody data
  = PlainBody
      [ ("compiler_version", value_of (compiler data));
        ("source_code", JStr (code data));
        ("is_optimization_enabled", JBool (is_optimization_enabled data));
        ("is_yul_contract", JBool (is_yul data));
        ("optimization_runs", optimization_runs data);
        ("contract_name", JStr (name data));
        ("libraries", record_value (reduceLibrariesArray (libraries data)));
        ("evm_version", value_of (evm_version data));
        ("autodetect_constructor_args", JBool (autodetect_constructor_args data));
        ("constructor_args", JStr (constructor_args data)) ].
Proof. unfold tag, prepareRequestBody; intros ->; reflexivity. Qed.

End Branches.

(* ===================================================================== *)
(** ** Facts about property lists *)
(* ===================================================================== *)

Section PropertyFacts.
Import Js.
Context {V : Type}.
Implicit Types (o : list (string * V)) (k : string) (v : V).

Lemma obj_get_app o1 o2 k :
  obj_get (o1 ++ o2)%list k
  = match obj_get o1 k with Some v => Some v | None => obj_get o2 k end.
Proof.
  induction o1 as [|[k' v'] rest IH]; simpl; [reflexivity|].
  case_eqb k' k; auto.
Qed.

Lemma obj_get_None_keys o k : obj_get o k = None <-> ~ In k (obj_keys o).
Proof.
  induction o as [|[k' v'] rest IH]; simpl.
  - tauto.
  - case_eqb k' k.
    + split; [discriminate | intros H; exfalso; apply H; now left].
    + rewrite IH. tauto.
Qed.

Lemma obj_get_replace_eq o k v :
  obj_has o k = true -> obj_get (obj_replace o k v) k = Some v.
Proof.
  unfold obj_has; induction o as [|[k' v'] rest IH]; simpl; [discriminate|].
  case_eqb k' k; simpl.
  - now rewrite String.eqb_refl.
  - case_eqb k' k. exact IH.
Qed.

Lemma obj_get_replace_ne o k k' v :
  k <> k' -> obj_get (obj_replace o k v) k' = obj_get o k'.
Proof.
  intros Hne; induction o as [|[k0 v0] rest IH]; simpl; [reflexivity|].
  case_eqb k0 k; simpl.
  - case_eqb k k'; auto.
  - case_eqb k0 k'; auto.
Qed.


Lemma obj_get_add_index o n k k' v :
  obj_get o k = None ->
  obj_get (obj_add_index o n k v) k' = if k =? k' then Some v else obj_get o k'.
Proof.
  induction o as [|[k0 v0] rest IH]; simpl; [reflexivity|].
  destruct (String.eqb_spec k0 k) as [->|Hk0]; [discriminate|]; intros Hnone.
  destruct (array_index k0) as [n'|]; [destruct (n' <? n)%N|]; simpl;
    try reflexivity.
  rewrite IH by assumption.
  case_eqb k0 k'; auto. case_eqb k k'; auto.
Qed.


(** A write to [__proto__] leaves the object as it is. *)
Lemma obj_set_proto o v : obj_set o "__proto__" v = o.
Proof. reflexivity. Qed.

(** Reading after a write to any other name. *)
Lemma obj_get_set o k k' v :
  k <> "__proto__" ->
  obj_get (obj_set o k v) k' = if k =? k' then Some v else obj_get o k'.
Proof.
  intros Hproto. unfold obj_set.
  destruct (String.eqb_spec k "__proto__") as [E|_]; [contradiction|].
  destruct (obj_has o k) eqn:Hhas.
  - destruct (String.eqb_spec k k') as [<-|Hne].
    + now apply obj_get_replace_eq.
    + now apply obj_get_replace_ne.
  - assert (Hnone : obj_get o k = None)
      by (unfold obj_has in Hhas; destruct (obj_get o k); congruence).
    destruct (array_index k) as [n|].
    + now apply obj_get_add_index.
    + rewrite obj_get_app. simpl.
      destruct (String.eqb_spec k k') as [<-|Hne].
      * now rewrite Hnone.
      * now destruct (obj_get o k').
Qed.


End PropertyFacts.

(* ===================================================================== *)
(** ** Facts about [reduceLibrariesArray] *)
(* ===================================================================== *)

Section Libraries.
Import Js Verification Expected.
Implicit Types (libs : list ContractLibrary.t) (n a : string).

Lemma last_address_None libs n :
  last_address libs n = None <-> Forall (fun x => ContractLibrary.name x <> n) libs.
Proof.
  induction libs as [|item rest IH]; simpl.
  - split; [constructor | reflexivity].
  - destruct (last_address rest n) as [a|].
    + split; [discriminate|]. intros H; inversion H; subst.
      now apply IH.
    + destruct (String.eqb_spec (ContractLibrary.name item) n) as [E|E].
      * split; [discriminate|]. intros H; inversion H; subst. congruence.
      * split; [|reflexivity]. intros _. constructor; [exact E | now apply IH].
Qed.

(** [last_address] finds the entry of that name that no later entry of that
    name follows. *)
Lemma last_address_Some libs n a :
  last_address libs n = Some a <->
  exists before item after,
    libs = (before ++ item :: after)%list
    /\ ContractLibrary.name item = n
    /\ ContractLibrary.address item = a
    /\ Forall (fun x => ContractLibrary.name x <> n) after.
Proof.
  split.
  - revert a; induction libs as [|item rest IH]; simpl; intros a H; [discriminate|].
    destruct (last_address rest n) as [a'|] eqn:Hrest.
    + injection H as ->.
      destruct (IH a eq_refl) as (before & it & after & -> & Hn & Ha & Hafter).
      now exists (item :: before), it, after.
    + destruct (String.eqb_spec (ContractLibrary.name item) n) as [E|E];
        [|discriminate].
      injection H as <-. exists [], item, rest.
      repeat split; [exact E | now apply last_address_None].
  - intros (before & item & after & -> & Hn & Ha & Hafter).
    induction before as [|b before IH]; simpl.
    + apply last_address_None in Hafter. rewrite Hafter, Hn, String.eqb_refl.
      now rewrite Ha.
    + now rewrite IH.
Qed.

Lemma obj_get_fold_libraries libs (acc : list (string * string)) n :
  n <> "__proto__" ->
  obj_get (fold_left add_library libs acc) n
  = match last_address libs n with
    | Some a => Some a
    | None => obj_get acc n
    end.
Proof.
  intros Hn.
  revert acc; induction libs as [|item rest IH]; intros acc; simpl; [reflexivity|].
  rewrite IH. unfold add_library.
  destruct (last_address rest n); [reflexivity|].
  destruct (String.eqb_spec (ContractLibrary.name item) "__proto__") as [E|E].
  - rewrite E, obj_set_proto.
    destruct (String.eqb_spec "__proto__" n); congruence.
  - rewrite obj_get_set by exact E.
    now destruct (ContractLibrary.name item =? n).
Qed.

(** No entry of the list creates a property named [__proto__]. *)
Lemma obj_get_fold_libraries_proto libs (acc : list (string * string)) :
  obj_get (fold_left add_library libs acc) "__proto__" = obj_get acc "__proto__".
Proof.
  revert acc; induction libs as [|item rest IH]; intros acc; simpl; [reflexivity|].
  rewrite IH. unfold add_library.
  destruct (String.eqb_spec (ContractLibrary.name item) "__proto__") as [E|E].
  - now rewrite E, obj_set_proto.
  - rewrite obj_get_set by exact E.
    destruct (String.eqb_spec (ContractLibrary.name item) "__proto__"); congruence.
Qed.


Lemma reduceLibrariesArray_empty (libraries : option (list ContractLibrary.t)) :
  libraries = None \/ libraries = Some [] -> reduceLibrariesArray libraries = None.
Proof. now intros [-> | ->]. Qed.

Lemma reduceLibrariesArray_nonempty libs :
  libs <> [] -> reduceLibrariesArray (Some libs) = Some (fold_left add_library libs []).
Proof. destruct libs; [congruence | reflexivity]. Qed.

End Libraries.

(* ===================================================================== *)
(** ** Facts about [Array.prototype.join] and [Array.prototype.sort] *)
(* ===================================================================== *)

Section Join.
Import Js.

Lemma join_loop_later (sep : string) (elems : list string) (R : string) (k : nat) :
  join_loop sep R (S k) elems
  = R ++ match elems with
         | [] => ""
         | _ :: _ => sep ++ String.concat sep elems
         end.
Proof.
  revert R k; induction elems as [|e rest IH]; intros R k; simpl join_loop.
  - now rewrite append_empty_r.
  - rewrite IH. destruct rest as [|e' rest]; simpl String.concat.
    + now rewrite append_empty_r, append_assoc.
    + now rewrite !append_assoc.
Qed.

(** [join] is the concatenation with the separator between neighbours. *)
Lemma Array_join_concat (sep : string) (elems : list string) :
  Array_join sep elems = String.concat sep elems.
Proof.
  unfold Array_join. destruct elems as [|e rest]; simpl join_loop; [reflexivity|].
  rewrite join_loop_later. destruct rest as [|e' rest]; simpl String.concat.
  - now rewrite append_empty_r.
  - reflexivity.
Qed.

End Join.

Section SortByKey.
Import Js.
Context {A : Type} (key : A -> Z) (comparefn : A -> A -> Z).
Hypothesis comparefn_key :
  forall a b, (comparefn a b <=? 0)%Z = (key a <=? key b)%Z.

Local Abbreviation le_key := (fun a b : A => (key a <= key b)%Z) (only parsing).

Lemma sort_insert_perm (x : A) (l : list A) :
  Permutation (sort_insert comparefn x l) (x :: l).
Proof.
  induction l as [|y rest IH]; simpl; [reflexivity|].
  destruct (comparefn x y <=? 0)%Z; [reflexivity|].
  rewrite IH. apply perm_swap.
Qed.

Lemma Array_sort_perm (l : list A) : Permutation (Array_sort comparefn l) l.
Proof.
  induction l as [|x rest IH]; simpl; [reflexivity|].
  fold (Array_sort comparefn rest). rewrite sort_insert_perm. now constructor.
Qed.

Lemma sort_insert_sorted (x : A) (l : list A) :
  StronglySorted le_key l -> StronglySorted le_key (sort_insert comparefn x l).
Proof.
  induction 1 as [|y rest Hrest IH Hall]; simpl.
  - repeat constructor.
  - rewrite comparefn_key. destruct (Z.leb_spec (key x) (key y)) as [Hle|Hgt].
    + constructor; [now constructor|].
      constructor; [exact Hle|].
      eapply Forall_impl; [|exact Hall]. simpl; intros z Hz; lia.
    + constructor; [exact IH|].
      eapply Permutation_Forall; [symmetry; apply sort_insert_perm|].
      constructor; [lia | exact Hall].
Qed.

Lemma Array_sort_sorted (l : list A) : StronglySorted le_key (Array_sort comparefn l).
Proof.
  induction l as [|x rest IH]; simpl; [constructor|].
  now apply sort_insert_sorted.
Qed.

(** Two orderings of the same elements agree when the key tells the
    elements apart. *)
Lemma sorted_perm_unique (l1 l2 : list A) :
  (forall a b, In a l1 -> In b l1 -> key a = key b -> a = b) ->
  StronglySorted le_key l1 -> StronglySorted le_key l2 ->
  Permutation l1 l2 -> l1 = l2.
Proof.
  revert l2; induction l1 as [|a l1 IH]; intros l2 Hinj H1 H2 Hperm.
  - now apply Permutation_nil in Hperm.
  - destruct l2 as [|b l2];
      [now apply Permutation_sym, Permutation_nil_cons in Hperm|].
    inversion H1 as [|? ? Hs1 Ha]; inversion H2 as [|? ? Hs2 Hb]; subst.
    assert (Hab : a = b).
    { assert (Hin_b : In b (a :: l1))
        by (eapply Permutation_in; [symmetry; exact Hperm | now left]).
      assert (Hin_a : In a (b :: l2))
        by (eapply Permutation_in; [exact Hperm | now left]).
      apply Hinj; [now left | exact Hin_b |].
      rewrite Forall_forall in Ha, Hb.
      destruct Hin_b as [->|Hin_b]; [reflexivity|].
      destruct Hin_a as [->|Hin_a]; [reflexivity|].
      specialize (Ha _ Hin_b); specialize (Hb _ Hin_a); lia. }
    subst b. f_equal. apply IH; try assumption.
    + intros x y Hx Hy. apply Hinj; now right.
    + now apply Permutation_cons_inv in Hperm.
Qed.

End SortByKey.

(* ===================================================================== *)
(** ** The verification-method registry *)
(* ===================================================================== *)

Section Registry.
Import Js Verification Expected.

Lemma position_nth (i : nat) (m : string) :
  nth_error SUPPORTED_VERIFICATION_METHODS i = Some m -> position m = Z.of_nat i.
Proof.
  intros H.
  do 6 (destruct i as [|i]; [injection H as <-; reflexivity|]).
  destruct i; discriminate H.
Qed.

Lemma position_inj (a b : string) :
  In a SUPPORTED_VERIFICATION_METHODS -> In b SUPPORTED_VERIFICATION_METHODS ->
  position a = position b -> a = b.
Proof.
  intros Ha Hb.
  apply In_nth_error in Ha, Hb. destruct Ha as [i Hi], Hb as [j Hj].
  rewrite (position_nth _ _ Hi), (position_nth _ _ Hj). intros E.
  apply Nat2Z.inj in E. subst j. congruence.
Qed.

Lemma sortVerificationMethods_position (a b : string) :
  sortVerificationMethods a b
  = match (position a ?= position b)%Z with
    | Lt => (-1)%Z
    | Eq => 0%Z
    | Gt => 1%Z
    end.
Proof.
  unfold sortVerificationMethods. fold (position a) (position b).
  rewrite Z.gtb_ltb.
  destruct (Z.compare_spec (position a) (position b)) as [E|E|E];
    destruct (Z.ltb_spec (position b) (position a));
    destruct (Z.ltb_spec (position a) (position b)); try reflexivity; lia.
Qed.

Lemma sortVerificationMethods_leb (a b : string) :
  (sortVerificationMethods a b <=? 0)%Z = (position a <=? position b)%Z.
Proof.
  rewrite sortVerificationMethods_position.
  destruct (Z.compare_spec (position a) (position b));
    destruct (Z.leb_spec (position a) (position b)); try reflexivity; lia.
Qed.

Lemma StronglySorted_weaken {A : Type} (R R' : A -> A -> Prop) (l : list A) :
  (forall a b, R a b -> R' a b) -> StronglySorted R l -> StronglySorted R' l.
Proof.
  intros HR; induction 1 as [|a l Hl IH Hall]; constructor; [exact IH|].
  eapply Forall_impl; [|exact Hall]. apply HR.
Qed.

Lemma SUPPORTED_sorted :
  StronglySorted (fun a b => (position a <= position b)%Z)
    SUPPORTED_VERIFICATION_METHODS.
Proof.
  unfold SUPPORTED_VERIFICATION_METHODS.
  repeat (constructor; [|repeat (constructor; [vm_compute; discriminate|]); constructor]).
  constructor.
Qed.

(** C3: sorting any permutation of the six method tags with
    [sortVerificationMethods] yields the canonical order flattened-code,
    standard-input, sourcify, multi-part, vyper-code, vyper-multi-part (and
    that order is the only arrangement the comparator accepts as sorted);
    on two of the six tags the comparator returns -1, 0 or 1 as the first
    stands before, at or after the second in that list. *)
Theorem sortVerificationMethods_canonical (l : list string) :
  Permutation l SUPPORTED_VERIFICATION_METHODS ->
  Array_sort sortVerificationMethods l = SUPPORTED_VERIFICATION_METHODS
  /\ (forall l', Permutation l' l ->
        StronglySorted (fun a b => (sortVerificationMethods a b <= 0)%Z) l' ->
        l' = SUPPORTED_VERIFICATION_METHODS)
  /\ (forall i j a b,
        nth_error SUPPORTED_VERIFICATION_METHODS i = Some a ->
        nth_error SUPPORTED_VERIFICATION_METHODS j = Some b ->
        sortVerificationMethods a b
        = match Nat.compare i j with
          | Lt => (-1)%Z
          | Eq => 0%Z
          | Gt => 1%Z
          end).
Proof.
  intros Hperm.
  assert (Hunique : forall l', Permutation l' SUPPORTED_VERIFICATION_METHODS ->
            StronglySorted (fun a b => (position a <= position b)%Z) l' ->
            l' = SUPPORTED_VERIFICATION_METHODS).
  { intros l' Hl' Hsorted. symmetry.
    apply (sorted_perm_unique position); auto using SUPPORTED_sorted, position_inj.
    now symmetry. }
  split; [|split].
  - apply Hunique.
    + now rewrite (Array_sort_perm sortVerificationMethods).
    + apply (Array_sort_sorted position _ sortVerificationMethods_leb).
  - intros l' Hl' Hsorted. apply Hunique; [now rewrite Hl'|].
    eapply StronglySorted_weaken; [|exact Hsorted].
    intros a b Hab; simpl in Hab. apply Z.leb_le.
    rewrite <- sortVerificationMethods_leb. now apply Z.leb_le.
  - intros i j a b Hi Hj.
    rewrite sortVerificationMethods_position.
    rewrite (position_nth _ _ Hi), (position_nth _ _ Hj).
    now rewrite Nat2Z.inj_compare.
Qed.

Lemma sortVerificationMethods_canonical_witness :
  Array_sort sortVerificationMethods
    [ "vyper-multi-part"; "vyper-code"; "multi-part"; "sourcify"; "standard-input";
      "flattened-code" ]
  = SUPPORTED_VERIFICATION_METHODS
  /\ sortVerificationMethods "vyper-code" "sourcify" = 1%Z.
Proof.
  destruct (sortVerificationMethods_canonical
              (List.rev SUPPORTED_VERIFICATION_METHODS)
              (Permutation_sym (Permutation_rev SUPPORTED_VERIFICATION_METHODS)))
    as (Hsort & _ & Hcmp).
  split; [exact Hsort | exact (Hcmp 4 2 _ _ eq_refl eq_refl)].
Defined.

(** C7: [isValidVerificationMethod] returns true exactly on a string that
    is one of the six method tags: true for flattened-code, false for
    unknown-method and for an absent argument. *)
Theorem isValidVerificationMethod_iff :
  (forall method : option string,
      isValidVerificationMethod method = true
      <-> exists m, method = Some m /\ In m SUPPORTED_VERIFICATION_METHODS)
  /\ isValidVerificationMethod (Some "flattened-code") = true
  /\ isValidVerificationMethod (Some "unknown-method") = false
  /\ isValidVerificationMethod None = false.
Proof.
  split; [|repeat split].
  intros [m|]; unfold isValidVerificationMethod, ToBoolean.
  - split.
    + intros H. exists m. split; [reflexivity|].
      destruct (Array_includes SUPPORTED_VERIFICATION_METHODS m) eqn:Hinc;
        [|rewrite andb_false_r in H; discriminate H].
      apply existsb_exists in Hinc. destruct Hinc as (y & Hy & Hym).
      apply String.eqb_eq in Hym. now subst.
    + intros (m' & [= <-] & Hin).
      assert (Hinc : Array_includes SUPPORTED_VERIFICATION_METHODS m = true).
      { apply existsb_exists. exists m. split; [exact Hin | apply String.eqb_refl]. }
      rewrite Hinc, andb_true_r.
      simpl in Hin. repeat destruct Hin as [<-|Hin]; try reflexivity. contradiction.
  - split; [discriminate|]. now intros (m & [=] & _).
Qed.

(** C8 (amended): for every method tag the default-value table has an entry
    carrying that method and every field the builder reads for the method,
    the chosen contract index apart. Every field of the entry holds its
    default: the optimization-enabled and autodetect-constructor-args flags
    are true; the optimization run count is the number 200 for multi-part
    and the string 200 for flattened-code; the collections (libraries,
    sources) are empty; the other strings (name, code, constructor
    arguments) are empty; the Yul flag is false; the compiler and the EVM
    version are null. *)
Theorem DEFAULT_VALUES_defaults (method_tag : string) :
  In method_tag SUPPORTED_VERIFICATION_METHODS ->
  exists fields,
    obj_get DEFAULT_VALUES method_tag = Some (JObj fields)
    /\ (forall k v,
          In (k, v) fields ->
          (k = "method"
           /\ v = JObj [ ("value", JStr method_tag);
                         ("label", obj_read METHOD_LABELS method_tag) ])
          \/ (In k [ "is_optimization_enabled"; "autodetect_constructor_args" ]
              /\ v = JBool true)
          \/ (k = "optimization_runs"
              /\ ((method_tag = "multi-part" /\ v = JNum 200)
                  \/ (method_tag = "flattened-code" /\ v = JStr "200")))
          \/ (In k [ "libraries"; "sources" ] /\ v = JArr [])
          \/ (In k [ "name"; "code"; "constructor_args" ] /\ v = JStr "")
          \/ (k = "is_yul" /\ v = JBool false)
          \/ (In k [ "compiler"; "evm_version" ] /\ v = JNull))
    /\ (forall k, In k (fields_read method_tag) -> k <> "contract_index" ->
          obj_has fields k = true)
    /\ obj_has fields "method" = true
    /\ NoDup (obj_keys fields).
Proof.
  intros Hin. simpl in Hin.
  repeat destruct Hin as [<-|Hin]; try contradiction;
    (eexists; split; [reflexivity|]; split; [|split; [|split]]);
    try reflexivity.
  all: try (intros k v H; simpl in H;
            repeat (destruct H as [H|H];
                    [injection H as <- <-; simpl; tauto|]);
            contradiction).
  all: try (intros k H Hk; simpl in H;
            repeat (destruct H as [H|H]; [subst k; first [reflexivity | congruence]|]);
            contradiction).
  all: apply (NoDup_count_occ' string_dec); intros k H; simpl in H;
    repeat (destruct H as [<-|H]; [reflexivity|]); contradiction.
Qed.

Lemma DEFAULT_VALUES_defaults_witness :
  exists fields,
    obj_get DEFAULT_VALUES "multi-part" = Some (JObj fields)
    /\ In ("optimization_runs", JNum 200) fields
    /\ obj_has fields "libraries" = true.
Proof.
  destruct (DEFAULT_VALUES_defaults "multi-part")
    as (fields & Hentry & _ & Hread & _).
  - simpl. tauto.
  - exists fields. split; [exact Hentry|]. split.
    + injection Hentry as <-. simpl. tauto.
    + apply Hread; [simpl; tauto | discriminate].
Defined.

(** C8, as stated, fails: the flattened-code entry has a string field, the
    optimization run count, whose default is not the empty string. *)
Lemma DEFAULT_VALUES_string_not_empty :
  exists fields,
    obj_get DEFAULT_VALUES "flattened-code" = Some (JObj fields)
    /\ In ("optimization_runs", JStr "200") fields
    /\ "200" <> "".
Proof.
  eexists. split; [reflexivity|]. split; [simpl; tauto | discriminate].
Qed.

End Registry.

(* ===================================================================== *)
(** ** The request body builder *)
(* ===================================================================== *)

Section Builder.
Import Js WebFormData Verification Expected.

Lemma addFilesToFormData_fresh (body : WebFormData.t) (files : option (list File.t)) :
  (forall j, has body (files_key j) = false) ->
  addFilesToFormData body files
  = (body ++ indexed_files 0 (match files with Some fs => fs | None => [] end))%list.
Proof.
  intros Hfresh. destruct files as [fs|]; simpl.
  - apply addFiles_loop_fresh. intros j _. apply Hfresh.
  - now rewrite app_nil_r.
Qed.

(** A file-bearing body is the scalar entries set before the files, one
    entry per file, and the scalar entries set after them. *)
Lemma prepareRequestBody_files (data : FormFields) :
  In (tag data) [ "standard-input"; "sourcify"; "multi-part"; "vyper-multi-part" ] ->
  exists before after,
    prepareRequestBody data
    = MultipartBody (before ++ indexed_files 0 (source_list data) ++ after)%list
    /\ file_entries before = []
    /\ file_entries after = []
    /\ (forall j, has before (files_key j) = false).
Proof.
  intros Hin. simpl in Hin. unfold source_list.
  destruct Hin as [H|[H|[H|[H|[]]]]]; symmetry in H.
  - rewrite (prepareRequestBody_standard_input _ H).
    eexists; exists []. rewrite app_nil_r.
    split; [f_equal; apply addFilesToFormData_fresh; intros j; reflexivity|].
    repeat split.
  - rewrite (prepareRequestBody_sourcify _ H). exists []. cbv zeta.
    rewrite addFilesToFormData_fresh by (intros j; reflexivity). simpl app.
    destruct (contract_index data) as [chosen|].
    + exists [ ("chosen_contract_index", FDString (SelectOption.value chosen)) ].
      split; [|repeat split].
      unfold set. rewrite set_entry_fresh; [reflexivity|].
      apply has_indexed_files_other. not_files_key.
    + exists []. rewrite app_nil_r. repeat split.
  - rewrite (prepareRequestBody_multi_part _ H). cbv zeta.
    destruct (is_optimization_enabled data),
      (reduceLibrariesArray (libraries data)) as [o|];
      (eexists; exists []; rewrite app_nil_r;
       split; [f_equal; apply addFilesToFormData_fresh; intros j; reflexivity|];
       repeat split).
  - rewrite (prepareRequestBody_vyper_multi_part _ H).
    eexists; exists []. rewrite app_nil_r.
    split; [f_equal; apply addFilesToFormData_fresh; intros j; reflexivity|].
    repeat split.
Qed.

(** C4: for a file-bearing method whose source list has N files, the
    multipart body holds exactly N file entries, the file at index i of the
    list under the key files[i], in list order; for an empty or absent list
    it holds no file entry. *)
Theorem prepareRequestBody_file_entries (data : FormFields) :
  In (tag data) [ "standard-input"; "sourcify"; "multi-part"; "vyper-multi-part" ] ->
  exists body,
    prepareRequestBody data = MultipartBody body
    /\ file_entries body = indexed_files 0 (source_list data)
    /\ length (file_entries body) = length (source_list data)
    /\ (forall i file,
          nth_error (source_list data) i = Some file ->
          get body (files_key i) = Some (FDFile file (File.name file)))
    /\ (sources data = None \/ sources data = Some [] -> file_entries body = []).
Proof.
  intros Hin.
  destruct (prepareRequestBody_files data Hin)
    as (before & after & Hbody & Hbefore & Hafter & Hfresh).
  eexists. split; [exact Hbody|].
  assert (Hfiles : file_entries
                     (before ++ indexed_files 0 (source_list data) ++ after)%list
                   = indexed_files 0 (source_list data)).
  { rewrite !file_entries_app, Hbefore, Hafter, app_nil_r.
    apply file_entries_indexed_files. }
  rewrite Hfiles. split; [reflexivity|]. split; [apply length_indexed_files|]. split.
  - intros i file Hi. rewrite get_app.
    specialize (Hfresh i). rewrite has_get in Hfresh.
    destruct (get before (files_key i)); [discriminate|].
    rewrite get_app. pose proof (get_indexed_files _ 0 i file Hi) as Hget.
    simpl in Hget. now rewrite Hget.
  - unfold source_list. now intros [-> | ->].
Qed.

Lemma prepareRequestBody_file_entries_witness :
  exists body,
    prepareRequestBody
      (form "sourcify" None (Some [source_file "A.sol"; source_file "B.sol"]))
    = MultipartBody body
    /\ file_entries body
       = [ ("files[0]", FDFile (source_file "A.sol") "A.sol");
           ("files[1]", FDFile (source_file "B.sol") "B.sol") ].
Proof.
  destruct (prepareRequestBody_file_entries
              (form "sourcify" None (Some [source_file "A.sol"; source_file "B.sol"])))
    as (body & Hbody & Hfiles & _).
  - simpl. tauto.
  - exists body. split; [exact Hbody | exact Hfiles].
Defined.

(** C2: the multi-part body holds the optimization_runs field exactly when
    is_optimization_enabled is true, and then as the string of the form's
    run count. *)
Theorem prepareRequestBody_optimization_runs (data : FormFields) :
  tag data = "multi-part" ->
  exists body,
    prepareRequestBody data = MultipartBody body
    /\ has body "optimization_runs" = is_optimization_enabled data
    /\ (is_optimization_enabled data = true ->
        get body "optimization_runs"
        = Some (FDString (ToString (optimization_runs data)))).
Proof.
  intros Htag. rewrite (prepareRequestBody_multi_part _ Htag). cbv zeta.
  eexists. split; [reflexivity|].
  rewrite has_get, get_addFilesToFormData by not_files_key.
  destruct (is_optimization_enabled data),
    (reduceLibrariesArray (libraries data)) as [o|];
    (split; [reflexivity | intros; first [reflexivity | discriminate]]).
Qed.

Lemma prepareRequestBody_optimization_runs_witness :
  exists body,
    prepareRequestBody (form "multi-part" None None) = MultipartBody body
    /\ has body "optimization_runs" = true.
Proof.
  destruct (prepareRequestBody_optimization_runs (form "multi-part" None None) eq_refl)
    as (body & Hbody & Hhas & _).
  exists body. split; [exact Hbody | exact Hhas].
Defined.

(** C10: for the standard-input, multi-part and vyper-multi-part methods the
    multipart body always holds compiler_version, and for the latter two
    evm_version as well; a form field that is null or absent is stored as
    the string undefined, the key is never left out. *)
Theorem prepareRequestBody_compiler_version (data : FormFields) :
  In (tag data) [ "standard-input"; "multi-part"; "vyper-multi-part" ] ->
  exists body,
    prepareRequestBody data = MultipartBody body
    /\ get body "compiler_version" = Some (stored_scalar (compiler data))
    /\ (compiler data = None ->
        get body "compiler_version" = Some (FDString "undefined"))
    /\ (tag data <> "standard-input" ->
        get body "evm_version" = Some (stored_scalar (evm_version data))
        /\ (evm_version data = None ->
            get body "evm_version" = Some (FDString "undefined"))).
Proof.
  intros Hin. simpl in Hin.
  destruct Hin as [H|[H|[H|[]]]]; symmetry in H.
  - rewrite (prepareRequestBody_standard_input _ H).
    eexists. split; [reflexivity|].
    rewrite get_addFilesToFormData by not_files_key.
    repeat split; try congruence. now intros ->.
  - rewrite (prepareRequestBody_multi_part _ H). cbv zeta.
    eexists. split; [reflexivity|].
    rewrite !get_addFilesToFormData by not_files_key.
    destruct (is_optimization_enabled data),
      (reduceLibrariesArray (libraries data)) as [o|];
      (repeat split; try reflexivity; now intros ->).
  - rewrite (prepareRequestBody_vyper_multi_part _ H).
    eexists. split; [reflexivity|].
    rewrite !get_addFilesToFormData by not_files_key.
    repeat split; try reflexivity; now intros ->.
Qed.

Lemma prepareRequestBody_compiler_version_witness :
  exists body,
    prepareRequestBody (form "vyper-multi-part" None None) = MultipartBody body
    /\ get body "compiler_version" = Some (FDString "undefined")
    /\ get body "evm_version" = Some (FDString "undefined").
Proof.
  destruct (prepareRequestBody_compiler_version (form "vyper-multi-part" None None))
    as (body & Hbody & _ & Hcompiler & Hevm).
  - simpl. tauto.
  - exists body. split; [exact Hbody|]. split; [exact (Hcompiler eq_refl)|].
    apply Hevm; [discriminate | reflexivity].
Defined.

(** C6: on a method tag that is none of the six, [prepareRequestBody]
    returns the plain mapping with no field; being a total function, it
    returns on every form. *)
Theorem prepareRequestBody_unrecognized (data : FormFields) :
  ~ In (tag data) SUPPORTED_VERIFICATION_METHODS ->
  prepareRequestBody data = PlainBody [].
Proof.
  unfold tag, prepareRequestBody; intros Hnot.
  repeat match goal with
    | |- context [if ?a =? ?b then _ else _] =>
        destruct (String.eqb_spec a b) as [E|_];
        [exfalso; apply Hnot; rewrite E; simpl; tauto|]
    end.
  reflexivity.
Qed.

Lemma prepareRequestBody_unrecognized_witness :
  prepareRequestBody (form "unknown-method" None None) = PlainBody [].
Proof.
  apply prepareRequestBody_unrecognized.
  simpl. intros H.
  repeat (destruct H as [H|H]; [discriminate H|]). exact H.
Defined.

End Builder.

(* ===================================================================== *)
(** ** The JSON text of a record decodes to the record *)
(* ===================================================================== *)

Section JsonRoundTrip.
Import Js JsonText.











End JsonRoundTrip.

(* ===================================================================== *)
(** ** Library associations in the body *)
(* ===================================================================== *)

Section LibraryField.
Import Js WebFormData Verification Expected.

(** C1 (amended): when the libraries list is empty or absent, the
    multi-part body has no libraries entry, and the flattened-code body
    holds the libraries key with the value undefined, never a mapping. *)
Theorem prepareRequestBody_libraries_empty (data : FormFields) :
  libraries data = None \/ libraries data = Some [] ->
  (tag data = "multi-part" ->
   exists body,
     prepareRequestBody data = MultipartBody body
     /\ has body "libraries" = false)
  /\ (tag data = "flattened-code" ->
      exists fields,
        prepareRequestBody data = PlainBody fields
        /\ obj_get fields "libraries" = Some JUndefined).
Proof.
  intros Hempty. apply reduceLibrariesArray_empty in Hempty. split; intros Htag.
  - rewrite (prepareRequestBody_multi_part _ Htag), Hempty. cbv zeta.
    eexists. split; [reflexivity|].
    rewrite has_addFilesToFormData by not_files_key.
    now destruct (is_optimization_enabled data).
  - rewrite (prepareRequestBody_flattened_code _ Htag), Hempty.
    eexists. split; reflexivity.
Qed.

Lemma prepareRequestBody_libraries_empty_witness :
  (exists body,
      prepareRequestBody (form "multi-part" (Some []) None) = MultipartBody body
      /\ has body "libraries" = false)
  /\ (exists fields,
        prepareRequestBody (form "flattened-code" None None) = PlainBody fields
        /\ obj_get fields "libraries" = Some JUndefined).
Proof.
  split.
  - exact (proj1 (prepareRequestBody_libraries_empty
                    (form "multi-part" (Some []) None) (or_intror eq_refl)) eq_refl).
  - exact (proj2 (prepareRequestBody_libraries_empty
                    (form "flattened-code" None None) (or_introl eq_refl)) eq_refl).
Defined.

(** C1, as stated, fails for the flattened-code method: with an empty
    libraries list the returned mapping still has the libraries key, holding
    undefined. *)
Lemma prepareRequestBody_flattened_libraries_key :
  exists fields,
    prepareRequestBody (form "flattened-code" (Some []) None) = PlainBody fields
    /\ obj_has fields "libraries" = true
    /\ obj_get fields "libraries" = Some JUndefined.
Proof. eexists. repeat split. Qed.




End LibraryField.

(* ===================================================================== *)
(** ** The error remapper *)
(* ===================================================================== *)

Section Remapper.
Import Js Verification.

Lemma obj_read_missing (o : list (string * JsValue)) (k : string) :
  obj_get o k = None -> ~ In k inherited_names -> obj_read o k = JUndefined.
Proof.
  intros Hown Hnot. unfold obj_read. rewrite Hown.
  destruct (String.eqb_spec k "__proto__") as [E|_].
  - exfalso. apply Hnot. now left.
  - assert (H : obj_get Object_prototype k = None).
    { apply obj_get_None_keys. intros Hin. apply Hnot. now right. }
    now rewrite H.
Qed.

Lemma obj_read_inherited (o : list (string * JsValue)) (k : string) :
  obj_get o k = None -> In k inherited_names ->
  obj_read o k = JObj Object_prototype \/ exists name, obj_read o k = JFunction name.
Proof.
  intros Hown Hin. unfold obj_read. rewrite Hown. simpl in Hin.
  repeat destruct Hin as [<-|Hin]; try contradiction;
    first [left; reflexivity | right; eexists; reflexivity].
Qed.

(** C5 (amended): [formatSocketErrors] returns one pair per payload entry,
    in the payload's key order; the pair's field path is the entry's key
    looked up in the five-entry dictionary, and its message is the entry's
    messages joined by commas; a key that is neither in the dictionary nor
    the name of a member inherited from [Object.prototype] gives an
    undefined field path, no failure. *)
Theorem formatSocketErrors_pairs (errors : list (string * list string)) :
  length (formatSocketErrors errors) = length errors
  /\ (forall i key messages,
        nth_error errors i = Some (key, messages) ->
        nth_error (formatSocketErrors errors) i
        = Some (obj_read API_ERROR_TO_FORM_FIELD key,
                {| message := String.concat "," messages |}))
  /\ obj_read API_ERROR_TO_FORM_FIELD "contract_source_code" = JStr "code"
  /\ obj_read API_ERROR_TO_FORM_FIELD "files" = JStr "sources"
  /\ obj_read API_ERROR_TO_FORM_FIELD "compiler_version" = JStr "compiler"
  /\ obj_read API_ERROR_TO_FORM_FIELD "constructor_arguments" = JStr "constructor_args"
  /\ obj_read API_ERROR_TO_FORM_FIELD "name" = JStr "name"
  /\ (forall key,
        ~ In key [ "contract_source_code"; "files"; "compiler_version";
                   "constructor_arguments"; "name" ] ->
        ~ In key inherited_names ->
        obj_read API_ERROR_TO_FORM_FIELD key = JUndefined).
Proof.
  unfold formatSocketErrors, Object_entries.
  split; [apply length_map|]. split; [|repeat split].
  - intros i key messages Hi.
    rewrite nth_error_map, Hi. simpl. now rewrite Array_join_concat.
  - intros key Hnot Hinherited. apply obj_read_missing; [|exact Hinherited].
    apply obj_get_None_keys. exact Hnot.
Qed.

Lemma formatSocketErrors_pairs_witness :
  nth_error
    (formatSocketErrors
       [ ("name", ["is required"]);
         ("compiler_version", ["too old"; "unsupported"]);
         ("unexpected", ["x"]) ]) 1
  = Some (JStr "compiler", {| message := "too old,unsupported" |})
  /\ obj_read API_ERROR_TO_FORM_FIELD "unexpected" = JUndefined.
Proof.
  destruct (formatSocketErrors_pairs
              [ ("name", ["is required"]);
                ("compiler_version", ["too old"; "unsupported"]);
                ("unexpected", ["x"]) ])
    as (_ & Hnth & _ & _ & _ & _ & _ & Hunknown).
  split.
  - exact (Hnth 1 "compiler_version" ["too old"; "unsupported"] eq_refl).
  - apply Hunknown; simpl; intros H;
      repeat (destruct H as [H|H]; [discriminate H|]); exact H.
Defined.

(** C5, as stated, fails for a key that names a member inherited from
    [Object.prototype]: it is not in the dictionary, and the field path of
    its pair is the inherited function, not undefined. *)
Lemma formatSocketErrors_inherited_key :
  ~ In "toString" (obj_keys API_ERROR_TO_FORM_FIELD)
  /\ formatSocketErrors [ ("toString", ["is required"]) ]
     = [ (JFunction "toString", {| message := "is required" |}) ]
  /\ JFunction "toString" <> JUndefined.
Proof.
  split; [|split; [reflexivity | discriminate]].
  simpl. intros H. repeat (destruct H as [H|H]; [discriminate H|]). exact H.
Qed.

End Remapper.

(* ===================================================================== *)
(** ** Further facts about sorting *)
(* ===================================================================== *)

Section SortFurther.
Import Js.
Context {A : Type} (key : A -> Z) (comparefn : A -> A -> Z).
Hypothesis comparefn_key :
  forall a b, (comparefn a b <=? 0)%Z = (key a <=? key b)%Z.

(** An element that is not above any element of the list goes in front. *)
Lemma sort_insert_least (x : A) (l : list A) :
  Forall (fun y => (key x <= key y)%Z) l -> sort_insert comparefn x l = x :: l.
Proof.
  intros Hall. destruct l as [|y rest]; [reflexivity|]. simpl.
  rewrite comparefn_key. inversion Hall; subst.
  destruct (Z.leb_spec (key x) (key y)); [reflexivity | lia].
Qed.

(** Sorting leaves a sorted list as it is. *)
Lemma Array_sort_sorted_id (l : list A) :
  StronglySorted (fun a b => (key a <= key b)%Z) l -> Array_sort comparefn l = l.
Proof.
  induction 1 as [|x rest Hrest IH Hall]; [reflexivity|].
  simpl. fold (Array_sort comparefn rest). rewrite IH.
  now apply sort_insert_least.
Qed.

(** Inserting an element does not reorder the elements of one key. *)
Lemma sort_insert_filter (p : Z) (x : A) (l : list A) :
  filter (fun y => (key y =? p)%Z) (sort_insert comparefn x l)
  = filter (fun y => (key y =? p)%Z) (x :: l).
Proof.
  induction l as [|y rest IH]; [reflexivity|].
  simpl sort_insert. rewrite comparefn_key.
  destruct (Z.leb_spec (key x) (key y)) as [Hle|Hgt]; [reflexivity|].
  simpl filter in *. rewrite IH.
  destruct (Z.eqb_spec (key y) p), (Z.eqb_spec (key x) p); try reflexivity. lia.
Qed.

Lemma Array_sort_filter (p : Z) (l : list A) :
  filter (fun y => (key y =? p)%Z) (Array_sort comparefn l)
  = filter (fun y => (key y =? p)%Z) l.
Proof.
  induction l as [|x rest IH]; [reflexivity|].
  simpl Array_sort. fold (Array_sort comparefn rest).
  rewrite sort_insert_filter. simpl. now rewrite IH.
Qed.

End SortFurther.

(* ===================================================================== *)
(** ** Further properties of the registry *)
(* ===================================================================== *)

Section RegistryFurther.
Import Js Verification Expected.

Lemma indexOf_from_absent (arr : list string) (k : Z) (x : string) :
  ~ In x arr -> indexOf_from k arr x = (-1)%Z.
Proof.
  revert k; induction arr as [|y rest IH]; intros k Hnot; simpl; [reflexivity|].
  destruct (String.eqb_spec y x) as [E|E].
  - exfalso. apply Hnot. now left.
  - apply IH. intros Hin. apply Hnot. now right.
Qed.

Lemma indexOf_from_present (arr : list string) (k : Z) (x : string) :
  In x arr -> (k <= indexOf_from k arr x < k + Z.of_nat (length arr))%Z.
Proof.
  revert k; induction arr as [|y rest IH]; intros k Hin; [destruct Hin|].
  simpl indexOf_from. simpl length.
  destruct (String.eqb_spec y x) as [E|E]; [lia|].
  destruct Hin as [Hin|Hin]; [congruence|].
  specialize (IH (k + 1)%Z Hin). lia.
Qed.

Lemma position_unsupported (m : string) :
  ~ In m SUPPORTED_VERIFICATION_METHODS -> position m = (-1)%Z.
Proof. apply indexOf_from_absent. Qed.

Lemma position_supported (m : string) :
  In m SUPPORTED_VERIFICATION_METHODS -> (0 <= position m < 6)%Z.
Proof. intros Hin. apply (indexOf_from_present _ 0%Z) in Hin. exact Hin. Qed.

(** X13: [sortVerificationMethods] is a consistent comparator on all strings:
    it returns -1, 0 or 1, compares a string equal to itself, gives opposite
    answers when its arguments are swapped, and is transitive. *)
Theorem sortVerificationMethods_consistent (a b c : string) :
  (sortVerificationMethods a b = (-1)%Z
   \/ sortVerificationMethods a b = 0%Z
   \/ sortVerificationMethods a b = 1%Z)
  /\ sortVerificationMethods a a = 0%Z
  /\ sortVerificationMethods a b = (- sortVerificationMethods b a)%Z
  /\ ((sortVerificationMethods a b <= 0)%Z ->
      (sortVerificationMethods b c <= 0)%Z ->
      (sortVerificationMethods a c <= 0)%Z).
Proof.
  rewrite !sortVerificationMethods_position.
  rewrite Z.compare_refl.
  destruct (Z.compare_spec (position a) (position b));
    destruct (Z.compare_spec (position b) (position a));
    destruct (Z.compare_spec (position b) (position c));
    destruct (Z.compare_spec (position a) (position c));
    repeat split; auto; try lia.
Qed.

Lemma sortVerificationMethods_consistent_witness :
  sortVerificationMethods "sourcify" "vyper-code" = (-1)%Z
  /\ sortVerificationMethods "vyper-code" "sourcify" = 1%Z
  /\ (sortVerificationMethods "flattened-code" "vyper-code" <= 0)%Z.
Proof.
  destruct (sortVerificationMethods_consistent "flattened-code" "sourcify" "vyper-code")
    as (_ & _ & _ & Htrans).
  split; [reflexivity|]. split; [reflexivity|].
  apply Htrans; vm_compute; discriminate.
Defined.

(** X14: a string that is not a method tag sorts before every method tag, and
    two such strings compare equal. *)
Theorem sortVerificationMethods_unrecognized (a b : string) :
  ~ In a SUPPORTED_VERIFICATION_METHODS ->
  (In b SUPPORTED_VERIFICATION_METHODS ->
   sortVerificationMethods a b = (-1)%Z /\ sortVerificationMethods b a = 1%Z)
  /\ (~ In b SUPPORTED_VERIFICATION_METHODS -> sortVerificationMethods a b = 0%Z).
Proof.
  intros Ha. apply position_unsupported in Ha.
  split; intros Hb; rewrite !sortVerificationMethods_position, Ha.
  - apply position_supported in Hb.
    destruct (Z.compare_spec (-1) (position b));
      destruct (Z.compare_spec (position b) (-1)); try lia; now split.
  - apply position_unsupported in Hb. now rewrite Hb.
Qed.

Lemma sortVerificationMethods_unrecognized_witness :
  sortVerificationMethods "unknown-method" "flattened-code" = (-1)%Z
  /\ sortVerificationMethods "unknown-method" "other" = 0%Z.
Proof.
  assert (Hnot : forall m, (Array_includes SUPPORTED_VERIFICATION_METHODS m = false) ->
                           ~ In m SUPPORTED_VERIFICATION_METHODS).
  { intros m Hinc Hin.
    assert (Array_includes SUPPORTED_VERIFICATION_METHODS m = true)
      by (apply existsb_exists; exists m; split; [exact Hin | apply String.eqb_refl]).
    congruence. }
  destruct (sortVerificationMethods_unrecognized "unknown-method" "flattened-code"
              (Hnot "unknown-method" eq_refl)) as [Hin _].
  destruct (sortVerificationMethods_unrecognized "unknown-method" "other"
              (Hnot "unknown-method" eq_refl)) as [_ Hout].
  split; [apply Hin; simpl; tauto | apply Hout, (Hnot "other"); reflexivity].
Defined.

(** X15: sorting any list of strings with [sortVerificationMethods] rearranges
    it into canonical position order, keeps strings of equal position in
    their original order (the sort is stable), and sorting again changes
    nothing. *)
Theorem Array_sort_methods (l : list string) :
  Permutation (Array_sort sortVerificationMethods l) l
  /\ StronglySorted (fun a b => (position a <= position b)%Z)
       (Array_sort sortVerificationMethods l)
  /\ (forall p,
        filter (fun m => (position m =? p)%Z) (Array_sort sortVerificationMethods l)
        = filter (fun m => (position m =? p)%Z) l)
  /\ Array_sort sortVerificationMethods (Array_sort sortVerificationMethods l)
     = Array_sort sortVerificationMethods l.
Proof.
  split; [apply Array_sort_perm|].
  split; [apply (Array_sort_sorted position _ sortVerificationMethods_leb)|].
  split.
  - intros p. apply (Array_sort_filter position _ sortVerificationMethods_leb).
  - apply (Array_sort_sorted_id position _ sortVerificationMethods_leb).
    apply (Array_sort_sorted position _ sortVerificationMethods_leb).
Qed.

Lemma obj_has_absent {V : Type} (o : list (string * V)) (k : string) :
  ~ In k (obj_keys o) -> obj_has o k = false.
Proof.
  intros Hnot. apply obj_get_None_keys in Hnot. unfold obj_has. now rewrite Hnot.
Qed.

(** X16: the registry is consistent: a string is a valid method exactly when it
    has a label and exactly when it has a default form state. *)
Theorem isValidVerificationMethod_registry (m : string) :
  isValidVerificationMethod (Some m) = obj_has METHOD_LABELS m
  /\ isValidVerificationMethod (Some m) = obj_has DEFAULT_VALUES m.
Proof.
  assert (Hdec : In m SUPPORTED_VERIFICATION_METHODS
                 \/ ~ In m SUPPORTED_VERIFICATION_METHODS).
  { destruct (in_dec string_dec m SUPPORTED_VERIFICATION_METHODS); tauto. }
  destruct Hdec as [Hin|Hnot].
  - simpl in Hin. repeat destruct Hin as [<-|Hin]; try contradiction; split; reflexivity.
  - assert (Hinvalid : isValidVerificationMethod (Some m) = false).
    { destruct (isValidVerificationMethod (Some m)) eqn:E; [|reflexivity].
      exfalso. apply Hnot. unfold isValidVerificationMethod in E.
      destruct (Array_includes SUPPORTED_VERIFICATION_METHODS m) eqn:Hinc;
        [|rewrite andb_false_r in E; discriminate E].
      apply existsb_exists in Hinc. destruct Hinc as (y & Hy & Hym).
      apply String.eqb_eq in Hym. now subst. }
    rewrite Hinvalid. split; symmetry; apply obj_has_absent; exact Hnot.
Qed.

End RegistryFurther.

(* ===================================================================== *)
(** ** Further facts about [FormData] and file attachment *)
(* ===================================================================== *)

Section FormDataFurther.
Import WebFormData Verification Expected.

Lemma keys_remove_all (body : t) (k x : string) :
  In x (map fst (remove_all k body)) <-> x <> k /\ In x (map fst body).
Proof.
  unfold remove_all.
  induction body as [|[n v] rest IH]; simpl; [tauto|].
  destruct (String.eqb_spec n k) as [E|E]; simpl; rewrite IH; subst;
    intuition congruence.
Qed.

Lemma keys_remove_all_NoDup (body : t) (k : string) :
  NoDup (map fst body) -> NoDup (map fst (remove_all k body)).
Proof.
  induction body as [|[n v] rest IH]; intros Hnd; [constructor|].
  simpl in Hnd. inversion Hnd as [|? ? Hnotin Hrest]; subst.
  unfold remove_all; simpl. fold (remove_all k rest).
  destruct (String.eqb_spec n k) as [E|E]; simpl; [now apply IH|].
  constructor; [|now apply IH].
  rewrite keys_remove_all. tauto.
Qed.

Lemma keys_set_entry (body : t) (k x : string) (v : EntryValue) :
  In x (map fst (set_entry body k v)) -> x = k \/ In x (map fst body).
Proof.
  induction body as [|[n w] rest IH]; simpl; [intuition congruence|].
  destruct (String.eqb_spec n k) as [E|E]; simpl.
  - rewrite keys_remove_all. intuition congruence.
  - intuition.
Qed.

(** Setting an entry keeps the names of a body distinct. *)
Lemma set_entry_NoDup (body : t) (k : string) (v : EntryValue) :
  NoDup (map fst body) -> NoDup (map fst (set_entry body k v)).
Proof.
  induction body as [|[n w] rest IH]; simpl; intros Hnd.
  - repeat constructor. intros [].
  - inversion Hnd as [|? ? Hnotin Hrest]; subst.
    destruct (String.eqb_spec n k) as [E|E]; simpl.
    + constructor; [|now apply keys_remove_all_NoDup].
      rewrite keys_remove_all. tauto.
    + constructor; [|now apply IH].
      intros Hin. apply keys_set_entry in Hin. intuition congruence.
Qed.

Lemma addFiles_loop_NoDup (files : list File.t) (body : t) (start : nat) :
  NoDup (map fst body) -> NoDup (map fst (addFiles_loop body start files)).
Proof.
  revert body start; induction files as [|file rest IH]; intros body start Hnd;
    [exact Hnd|].
  simpl. apply IH. now apply set_entry_NoDup.
Qed.

Lemma addFilesToFormData_NoDup (files : option (list File.t)) (body : t) :
  NoDup (map fst body) -> NoDup (map fst (addFilesToFormData body files)).
Proof.
  destruct files as [fs|]; simpl; [apply addFiles_loop_NoDup | trivial].
Qed.

Lemma get_addFiles_loop_frame (files : list File.t) (body : t) (start : nat)
  (k : string) :
  (forall j, k = files_key j -> j < start \/ start + length files <= j) ->
  get (addFiles_loop body start files) k = get body k.
Proof.
  revert body start; induction files as [|file rest IH]; intros body start Hk;
    [reflexivity|].
  simpl addFiles_loop. rewrite IH.
  - unfold set_file. apply get_set_entry_ne.
    intros E. symmetry in E. destruct (Hk _ E) as [H|H]; simpl in H; lia.
  - intros j E. destruct (Hk _ E) as [H|H]; simpl in H; lia.
Qed.

Lemma get_addFiles_loop_at (files : list File.t) (body : t) (start i : nat)
  (file : File.t) :
  nth_error files i = Some file ->
  get (addFiles_loop body start files) (files_key (start + i))
  = Some (FDFile file (File.name file)).
Proof.
  revert body start i; induction files as [|f rest IH]; intros body start [|i] Hi;
    simpl in Hi; try discriminate.
  - injection Hi as ->. simpl addFiles_loop. rewrite get_addFiles_loop_frame.
    + rewrite Nat.add_0_r. unfold set_file. apply get_set_entry_eq.
    + intros j E. apply files_key_inj in E. lia.
  - simpl addFiles_loop.
    replace (start + S i) with (S start + i) by lia. now apply IH.
Qed.

(** X8: attaching files changes no entry but those of the attached files: a
    key that is not [files[j]] for a position [j] of the list keeps the
    value it had (also [files[j]] for a [j] past the end of the list). *)
Theorem addFilesToFormData_frame
  (body : t) (files : option (list File.t)) (k : string) :
  (forall j, k = files_key j ->
             length (match files with Some fs => fs | None => [] end) <= j) ->
  get (addFilesToFormData body files) k = get body k.
Proof.
  intros Hk. destruct files as [fs|]; simpl; [|reflexivity].
  apply get_addFiles_loop_frame. intros j E. right. simpl. now apply Hk.
Qed.

Lemma addFilesToFormData_frame_witness :
  get (addFilesToFormData
         [ ("contract_name", FDString "Token");
           ("files[5]", FDString "stale") ]
         (Some [source_file "A.sol"]))
      "files[5]"
  = Some (FDString "stale").
Proof.
  apply (addFilesToFormData_frame
           [ ("contract_name", FDString "Token"); ("files[5]", FDString "stale") ]
           (Some [source_file "A.sol"]) "files[5]").
  intros j E. change "files[5]" with (files_key 5) in E.
  apply files_key_inj in E. subst j. simpl. lia.
Defined.

(** X9: whatever the body held before, after attaching a list the key
    [files[i]] holds the file at position [i] of the list, under the file's
    own name. *)
Theorem addFilesToFormData_overwrites
  (body : t) (files : list File.t) (i : nat) (file : File.t) :
  nth_error files i = Some file ->
  get (addFilesToFormData body (Some files)) (files_key i)
  = Some (FDFile file (File.name file)).
Proof.
  intros Hi. simpl. exact (get_addFiles_loop_at files body 0 i file Hi).
Qed.

Lemma addFilesToFormData_overwrites_witness :
  get (addFilesToFormData
         [ ("files[0]", FDString "stale") ]
         (Some [source_file "A.sol"; source_file "B.sol"]))
      "files[0]"
  = Some (FDFile (source_file "A.sol") "A.sol").
Proof.
  exact (addFilesToFormData_overwrites
           [ ("files[0]", FDString "stale") ]
           [source_file "A.sol"; source_file "B.sol"] 0 (source_file "A.sol") eq_refl).
Defined.

(** X10: the key scheme of the attached files: different positions give
    different keys, and no file key is one of the scalar keys of a
    multipart body. *)
Theorem files_key_distinct (i j : nat) :
  (files_key i = files_key j <-> i = j)
  /\ ~ In (files_key i) Wire.multipart_scalar_names.
Proof.
  split.
  - split; [apply files_key_inj | now intros ->].
  - unfold Wire.multipart_scalar_names. simpl. intros H.
    repeat (destruct H as [H|H]; [symmetry in H; revert H; generalize i; not_files_key|]).
    exact H.
Qed.

End FormDataFurther.

(* ===================================================================== *)
(** ** Further properties of the request body builder *)
(* ===================================================================== *)

Section BuilderFurther.
Import Js WebFormData Verification Expected.

Lemma prepareRequestBody_vyper_code (data : FormFields) :
  tag data = "vyper-code" ->
  prepareRequestBody data
  = PlainBody
      [ ("compiler_version", value_of (compiler data));
        ("source_code", JStr (code data));
        ("contract_name", JStr (name data));
        ("constructor_args", JStr (constructor_args data)) ].
Proof. unfold tag, prepareRequestBody; intros ->; reflexivity. Qed.

(** The dispatch of [prepareRequestBody]: one of the six tags, or the
    default branch. *)
Lemma prepareRequestBody_cases (data : FormFields) :
  tag data = "flattened-code" \/ tag data = "standard-input"
  \/ tag data = "sourcify" \/ tag data = "multi-part"
  \/ tag data = "vyper-code" \/ tag data = "vyper-multi-part"
  \/ (~ In (tag data) SUPPORTED_VERIFICATION_METHODS
      /\ prepareRequestBody data = PlainBody []).
Proof.
  unfold tag, prepareRequestBody.
  repeat match goal with
    | |- context [if ?a =? ?b then _ else _] =>
        destruct (String.eqb_spec a b) as [E|?]; [rewrite E; tauto|]
    end.
  repeat right. split; [|reflexivity].
  simpl. intuition congruence.
Qed.

Lemma keys_indexed_files (files : list File.t) (start : nat) :
  map fst (indexed_files start files) = map files_key (seq start (length files)).
Proof.
  revert start; induction files as [|file rest IH]; intros start; [reflexivity|].
  rewrite indexed_files_cons. simpl. now rewrite IH.
Qed.

Lemma keys_addFilesToFormData_fresh (body : WebFormData.t)
  (files : option (list File.t)) :
  (forall j, has body (files_key j) = false) ->
  map fst (addFilesToFormData body files)
  = (map fst body
     ++ map files_key
          (seq 0 (length (match files with Some fs => fs | None => [] end))))%list.
Proof.
  intros Hfresh. rewrite addFilesToFormData_fresh by exact Hfresh.
  now rewrite map_app, keys_indexed_files.
Qed.

(** X1: the shape of the body follows from the method tag alone: a multipart
    container for the four file-bearing methods, a plain mapping for every
    other tag, whatever the form holds. *)
Theorem prepareRequestBody_shape (data : FormFields) :
  Wire.is_multipart (prepareRequestBody data) = true
  <-> In (tag data) [ "standard-input"; "sourcify"; "multi-part"; "vyper-multi-part" ].
Proof.
  destruct (prepareRequestBody_cases data)
    as [H|[H|[H|[H|[H|[H|[Hnot H]]]]]]].
  - rewrite (prepareRequestBody_flattened_code _ H), H. simpl.
    split; [discriminate | intuition discriminate].
  - rewrite (prepareRequestBody_standard_input _ H), H. simpl. tauto.
  - rewrite (prepareRequestBody_sourcify _ H), H. simpl. tauto.
  - rewrite (prepareRequestBody_multi_part _ H), H. simpl. tauto.
  - rewrite (prepareRequestBody_vyper_code _ H), H. simpl.
    split; [discriminate | intuition discriminate].
  - rewrite (prepareRequestBody_vyper_multi_part _ H), H. simpl. tauto.
  - rewrite H. simpl. split; [discriminate|].
    intros Hin. exfalso. apply Hnot. simpl. tauto.
Qed.

(** X2: the empty plain mapping is returned for an unrecognized tag and for no
    other: a form of one of the six methods never yields it. *)
Theorem prepareRequestBody_empty_iff (data : FormFields) :
  prepareRequestBody data = PlainBody []
  <-> ~ In (tag data) SUPPORTED_VERIFICATION_METHODS.
Proof.
  destruct (prepareRequestBody_cases data)
    as [H|[H|[H|[H|[H|[H|[Hnot H]]]]]]];
    try (split; [intros _; exact Hnot | intros _; exact H]).
  - rewrite (prepareRequestBody_flattened_code _ H), H.
    split; [discriminate | intros Hn; exfalso; apply Hn; simpl; tauto].
  - rewrite (prepareRequestBody_standard_input _ H), H.
    split; [discriminate | intros Hn; exfalso; apply Hn; simpl; tauto].
  - rewrite (prepareRequestBody_sourcify _ H), H.
    split; [discriminate | intros Hn; exfalso; apply Hn; simpl; tauto].
  - rewrite (prepareRequestBody_multi_part _ H), H.
    split; [discriminate | intros Hn; exfalso; apply Hn; simpl; tauto].
  - rewrite (prepareRequestBody_vyper_code _ H), H.
    split; [discriminate | intros Hn; exfalso; apply Hn; simpl; tauto].
  - rewrite (prepareRequestBody_vyper_multi_part _ H), H.
    split; [discriminate | intros Hn; exfalso; apply Hn; simpl; tauto].
Qed.

(** X3: no body holds a field name twice, whatever the form. *)
Theorem prepareRequestBody_keys_distinct (data : FormFields) :
  NoDup (Wire.body_keys (prepareRequestBody data)).
Proof.
  assert (Hplain : forall keys : list string,
             forallb (fun k => Nat.eqb (count_occ string_dec keys k) 1) keys = true ->
             NoDup keys).
  { intros keys H. apply (NoDup_count_occ' string_dec). intros k Hin.
    rewrite forallb_forall in H. now apply Nat.eqb_eq, H. }
  destruct (prepareRequestBody_cases data)
    as [H|[H|[H|[H|[H|[H|[Hnot H]]]]]]].
  - rewrite (prepareRequestBody_flattened_code _ H). now apply Hplain.
  - rewrite (prepareRequestBody_standard_input _ H). simpl Wire.body_keys.
    apply addFilesToFormData_NoDup. now apply Hplain.
  - rewrite (prepareRequestBody_sourcify _ H). cbv zeta. simpl Wire.body_keys.
    destruct (contract_index data); unfold set;
      [apply set_entry_NoDup|]; apply addFilesToFormData_NoDup; constructor.
  - rewrite (prepareRequestBody_multi_part _ H). cbv zeta. simpl Wire.body_keys.
    apply addFilesToFormData_NoDup.
    destruct (is_optimization_enabled data),
      (reduceLibrariesArray (libraries data)); unfold set;
      repeat apply set_entry_NoDup; now apply Hplain.
  - rewrite (prepareRequestBody_vyper_code _ H). now apply Hplain.
  - rewrite (prepareRequestBody_vyper_multi_part _ H). simpl Wire.body_keys.
    apply addFilesToFormData_NoDup. now apply Hplain.
  - rewrite H. constructor.
Qed.

(** X4: the keys of a multipart body, in order: the scalar keys of the method
    (for multi-part, optimization_runs only when optimization is enabled
    and libraries only for a non-empty list), one key per file, and for
    sourcify the chosen contract index when one was chosen. *)
Theorem prepareRequestBody_multipart_keys (data : FormFields) :
  In (tag data) [ "standard-input"; "sourcify"; "multi-part"; "vyper-multi-part" ] ->
  exists body,
    prepareRequestBody data = MultipartBody body
    /\ map fst body = Wire.multipart_keys data.
Proof.
  intros Hin. simpl in Hin.
  unfold Wire.multipart_keys, Wire.scalar_keys, Wire.trailing_keys, source_list.
  destruct Hin as [H|[H|[H|[H|[]]]]]; symmetry in H; rewrite H.
  - rewrite (prepareRequestBody_standard_input _ H).
    eexists. split; [reflexivity|].
    rewrite keys_addFilesToFormData_fresh by (intros j; reflexivity).
    simpl. now rewrite app_nil_r.
  - rewrite (prepareRequestBody_sourcify _ H). cbv zeta.
    eexists. split; [reflexivity|].
    rewrite addFilesToFormData_fresh by (intros j; reflexivity). simpl app.
    destruct (contract_index data) as [chosen|]; simpl.
    + unfold set. rewrite set_entry_fresh
        by (apply has_indexed_files_other; not_files_key).
      now rewrite map_app, keys_indexed_files.
    + now rewrite keys_indexed_files, app_nil_r.
  - rewrite (prepareRequestBody_multi_part _ H). cbv zeta.
    eexists. split; [reflexivity|].
    rewrite keys_addFilesToFormData_fresh.
    + rewrite app_nil_r.
      destruct (is_optimization_enabled data),
        (libraries data) as [[|item rest]|]; reflexivity.
    + intros j.
      destruct (is_optimization_enabled data),
        (reduceLibrariesArray (libraries data)); reflexivity.
  - rewrite (prepareRequestBody_vyper_multi_part _ H).
    eexists. split; [reflexivity|].
    rewrite keys_addFilesToFormData_fresh by (intros j; reflexivity).
    simpl. now rewrite app_nil_r.
Qed.

Lemma prepareRequestBody_multipart_keys_witness :
  exists body,
    prepareRequestBody
      (form "multi-part" (Some [library "SafeMath" "0x01"])
         (Some [source_file "A.sol"; source_file "B.sol"]))
    = MultipartBody body
    /\ map fst body
       = [ "compiler_version"; "evm_version"; "is_optimization_enabled";
           "optimization_runs"; "libraries"; "files[0]"; "files[1]" ].
Proof.
  destruct (prepareRequestBody_multipart_keys
              (form "multi-part" (Some [library "SafeMath" "0x01"])
                 (Some [source_file "A.sol"; source_file "B.sol"])))
    as (body & Hbody & Hkeys).
  - simpl. tauto.
  - exists body. split; [exact Hbody | exact Hkeys].
Defined.

(** X5: the sourcify body holds chosen_contract_index exactly when a contract
    index was chosen, and then with the chosen option's value. *)
Theorem prepareRequestBody_chosen_contract_index (data : FormFields) :
  tag data = "sourcify" ->
  exists body,
    prepareRequestBody data = MultipartBody body
    /\ get body "chosen_contract_index"
       = option_map (fun chosen => FDString (SelectOption.value chosen))
           (contract_index data).
Proof.
  intros H. rewrite (prepareRequestBody_sourcify _ H). cbv zeta.
  eexists. split; [reflexivity|].
  destruct (contract_index data) as [chosen|]; simpl option_map.
  - unfold set. apply get_set_entry_eq.
  - now rewrite get_addFilesToFormData by not_files_key.
Qed.

Lemma prepareRequestBody_chosen_contract_index_witness :
  exists body,
    prepareRequestBody (form "sourcify" None (Some [source_file "A.sol"]))
    = MultipartBody body
    /\ get body "chosen_contract_index" = None.
Proof.
  exact (prepareRequestBody_chosen_contract_index
           (form "sourcify" None (Some [source_file "A.sol"])) eq_refl).
Defined.

(** X6: the scalar fields of the standard-input body: the contract name and
    the constructor arguments as given, and the autodetect flag as the text
    true or false. *)
Theorem prepareRequestBody_standard_input_scalars (data : FormFields) :
  tag data = "standard-input" ->
  exists body,
    prepareRequestBody data = MultipartBody body
    /\ get body "contract_name" = Some (FDString (name data))
    /\ get body "autodetect_constructor_args"
       = Some (FDString (Wire.boolean_text (autodetect_constructor_args data)))
    /\ get body "constructor_args" = Some (FDString (constructor_args data)).
Proof.
  intros H. rewrite (prepareRequestBody_standard_input _ H).
  eexists. split; [reflexivity|].
  rewrite !get_addFilesToFormData by not_files_key.
  destruct (autodetect_constructor_args data); repeat split.
Qed.

Lemma prepareRequestBody_standard_input_scalars_witness :
  exists body,
    prepareRequestBody (form "standard-input" None None) = MultipartBody body
    /\ get body "autodetect_constructor_args" = Some (FDString "true").
Proof.
  destruct (prepareRequestBody_standard_input_scalars
              (form "standard-input" None None) eq_refl)
    as (body & Hbody & _ & Hflag & _).
  exists body. split; [exact Hbody | exact Hflag].
Defined.

End BuilderFurther.

(* ===================================================================== *)
(** ** Further properties of [reduceLibrariesArray] *)
(* ===================================================================== *)

Section LibrariesFurther.
Import Js WebFormData Verification Expected.

Lemma length_obj_replace {V : Type} (o : list (string * V)) (k : string) (v : V) :
  length (obj_replace o k v) = length o.
Proof.
  induction o as [|[k' v'] rest IH]; simpl; [reflexivity|].
  destruct (k' =? k); simpl; [reflexivity | now rewrite IH].
Qed.

Lemma length_obj_add_index {V : Type} (o : list (string * V)) (n : N) (k : string)
  (v : V) :
  length (obj_add_index o n k v) = S (length o).
Proof.
  induction o as [|[k' v'] rest IH]; simpl; [reflexivity|].
  destruct (array_index k') as [n'|]; [destruct (n' <? n)%N|]; simpl;
    try reflexivity.
  now rewrite IH.
Qed.

Lemma length_obj_set {V : Type} (o : list (string * V)) (k : string) (v : V) :
  length (obj_set o k v)
  = if (k =? "__proto__") || obj_has o k then length o else S (length o).
Proof.
  unfold obj_set. destruct (k =? "__proto__"); [reflexivity|]. simpl orb.
  destruct (obj_has o k).
  - apply length_obj_replace.
  - destruct (array_index k).
    + apply length_obj_add_index.
    + rewrite length_app. simpl. lia.
Qed.

Lemma length_fold_libraries (libs : list ContractLibrary.t)
  (acc : list (string * string)) :
  length (fold_left add_library libs acc) <= length acc + length libs.
Proof.
  revert acc; induction libs as [|item rest IH]; intros acc; simpl; [lia|].
  specialize (IH (add_library acc item)).
  pose proof (length_obj_set acc (ContractLibrary.name item)
                (ContractLibrary.address item)) as Hlen.
  fold (add_library acc item) in Hlen.
  destruct ((ContractLibrary.name item =? "__proto__")
            || obj_has acc (ContractLibrary.name item)); lia.
Qed.

Lemma keys_fold_libraries (libs : list ContractLibrary.t)
  (acc : list (string * string)) (n : string) :
  In n (obj_keys (fold_left add_library libs acc))
  <-> In n (obj_keys acc)
      \/ (n <> "__proto__" /\ In n (map ContractLibrary.name libs)).
Proof.
  assert (Hkey : forall (o : list (string * string)),
             In n (obj_keys o) <-> obj_get o n <> None).
  { intros o. pose proof (obj_get_None_keys o n) as H.
    destruct (in_dec string_dec n (obj_keys o)); tauto. }
  rewrite !Hkey.
  destruct (string_dec n "__proto__") as [->|Hn].
  - rewrite obj_get_fold_libraries_proto. tauto.
  - rewrite obj_get_fold_libraries by exact Hn.
    destruct (last_address libs n) as [a|] eqn:Hlast.
    + split; [|discriminate]. intros _. right. split; [exact Hn|].
      apply last_address_Some in Hlast.
      destruct Hlast as (before & item & after & -> & <- & _).
      apply in_map, in_elt.
    + apply last_address_None in Hlast. rewrite Forall_forall in Hlast.
      split; [tauto|]. intros [H|[_ H]]; [exact H|].
      apply in_map_iff in H. destruct H as (item & Hname & Hin).
      now destruct (Hlast item Hin).
Qed.

(** X11: the result of [reduceLibrariesArray] is undefined exactly for an
    empty or absent list; otherwise it is an object with no more properties
    than the list has entries, whose property names are the names of the
    list other than [__proto__] (an entry of that name creates no property,
    so the object is empty when the list has no other name). *)
Theorem reduceLibrariesArray_result
  (libraries : option (list ContractLibrary.t)) :
  (reduceLibrariesArray libraries = None
   <-> libraries = None \/ libraries = Some [])
  /\ (forall o,
        reduceLibrariesArray libraries = Some o ->
        exists libs,
          libraries = Some libs
          /\ libs <> []
          /\ length o <= length libs
          /\ (forall n,
                In n (obj_keys o)
                <-> n <> "__proto__" /\ In n (map ContractLibrary.name libs))
          /\ (o = []
              <-> Forall (fun item => ContractLibrary.name item = "__proto__") libs)).
Proof.
  destruct libraries as [[|item rest]|].
  - split; [split; [tauto | reflexivity] | discriminate].
  - split; [split; [discriminate | intros [H|H]; discriminate H]|].
    intros o Ho. rewrite reduceLibrariesArray_nonempty in Ho by discriminate.
    assert (Hfold : o = fold_left add_library (item :: rest) []) by congruence.
    clear Ho.
    assert (Hkeys : forall n,
               In n (obj_keys o)
               <-> n <> "__proto__" /\ In n (map ContractLibrary.name (item :: rest))).
    { intros n. rewrite Hfold, keys_fold_libraries. simpl. tauto. }
    exists (item :: rest). split; [reflexivity|]. split; [discriminate|].
    split; [rewrite Hfold; apply (length_fold_libraries (item :: rest) [])|].
    split; [exact Hkeys|].
    clear Hfold. rewrite Forall_forall. split.
    + intros Hempty x Hx.
      destruct (string_dec (ContractLibrary.name x) "__proto__") as [E|E]; [exact E|].
      exfalso.
      assert (Hin : In (ContractLibrary.name x) (obj_keys o))
        by (apply Hkeys; split; [exact E | now apply in_map]).
      rewrite Hempty in Hin. exact Hin.
    + intros Hall. destruct o as [|[k v] o']; [reflexivity|].
      exfalso.
      assert (Hin : In k (obj_keys ((k, v) :: o'))) by now left.
      apply Hkeys in Hin. destruct Hin as [Hk Hin].
      apply in_map_iff in Hin. destruct Hin as (x & Hname & Hx).
      apply Hk. rewrite <- Hname. now apply Hall.
  - split; [split; [tauto | reflexivity] | discriminate].
Qed.

Lemma fold_libraries_distinct (libs : list ContractLibrary.t)
  (acc : list (string * string)) :
  NoDup (obj_keys acc ++ map ContractLibrary.name libs) ->
  (forall item, In item libs ->
     ContractLibrary.name item <> "__proto__"
     /\ array_index (ContractLibrary.name item) = None) ->
  fold_left add_library libs acc = (acc ++ Wire.as_record libs)%list.
Proof.
  revert acc; induction libs as [|item rest IH]; intros acc Hnd Hnames; simpl.
  - now rewrite app_nil_r.
  - assert (Hfresh : obj_has acc (ContractLibrary.name item) = false).
    { apply obj_has_absent. intros Hin.
      apply NoDup_remove_2 in Hnd. apply Hnd. apply in_or_app. now left. }
    destruct (Hnames item (or_introl eq_refl)) as [Hproto Hindex].
    assert (Hstep : add_library acc item
                    = (acc ++ [(ContractLibrary.name item,
                               ContractLibrary.address item)])%list).
    { unfold add_library, obj_set. rewrite Hfresh, Hindex.
      now destruct (String.eqb_spec (ContractLibrary.name item) "__proto__"). }
    rewrite Hstep, IH.
    + now rewrite <- app_assoc.
    + unfold obj_keys in *. rewrite map_app. simpl. now rewrite <- app_assoc.
    + intros x Hx. apply Hnames. now right.
Qed.

(** X12: for a non-empty list of distinctly named libraries, none named
    [__proto__] or like an array index, the object has exactly the list's
    entries in the list's order. *)
Theorem reduceLibrariesArray_distinct (libs : list ContractLibrary.t) :
  libs <> [] ->
  NoDup (map ContractLibrary.name libs) ->
  (forall item, In item libs ->
     ContractLibrary.name item <> "__proto__"
     /\ array_index (ContractLibrary.name item) = None) ->
  reduceLibrariesArray (Some libs) = Some (Wire.as_record libs).
Proof.
  intros Hne Hnd Hnames. rewrite reduceLibrariesArray_nonempty by exact Hne.
  f_equal. now apply (fold_libraries_distinct libs []).
Qed.

Lemma reduceLibrariesArray_distinct_witness :
  reduceLibrariesArray (Some [library "SafeMath" "0x01"; library "Strings" "0x02"])
  = Some [("SafeMath", "0x01"); ("Strings", "0x02")].
Proof.
  apply (reduceLibrariesArray_distinct
           [library "SafeMath" "0x01"; library "Strings" "0x02"]).
  - discriminate.
  - simpl. repeat constructor; simpl; intuition discriminate.
  - simpl. intros item [<-|[<-|[]]]; split; first [discriminate | reflexivity].
Defined.

(** X7: in the multi-part body the optimization flag is the text true or
    false, never a boolean. *)
Theorem prepareRequestBody_multi_part_flag (data : FormFields) :
  tag data = "multi-part" ->
  exists body,
    prepareRequestBody data = MultipartBody body
    /\ get body "is_optimization_enabled"
       = Some (FDString (Wire.boolean_text (is_optimization_enabled data))).
Proof.
  intros H. rewrite (prepareRequestBody_multi_part _ H). cbv zeta.
  eexists. split; [reflexivity|].
  rewrite get_addFilesToFormData by not_files_key.
  destruct (is_optimization_enabled data),
    (reduceLibrariesArray (libraries data)); reflexivity.
Qed.

Lemma prepareRequestBody_multi_part_flag_witness :
  exists body,
    prepareRequestBody (form "multi-part" None None) = MultipartBody body
    /\ get body "is_optimization_enabled" = Some (FDString "true").
Proof.
  exact (prepareRequestBody_multi_part_flag (form "multi-part" None None) eq_refl).
Defined.

End LibrariesFurther.

(* ===================================================================== *)
(** ** Further properties of the error remapper *)
(* ===================================================================== *)

Section RemapperFurther.
Import Js Verification.

(** A key outside the dictionary never reads a form field: the read is
    undefined or an inherited member. *)
Lemma API_ERROR_TO_FORM_FIELD_unknown (key : string) :
  ~ In key Wire.error_keys ->
  (In key inherited_names -> obj_read API_ERROR_TO_FORM_FIELD key <> JUndefined)
  /\ (~ In key inherited_names -> obj_read API_ERROR_TO_FORM_FIELD key = JUndefined)
  /\ forall s, obj_read API_ERROR_TO_FORM_FIELD key <> JStr s.
Proof.
  intros Hnot.
  assert (Hown : obj_get API_ERROR_TO_FORM_FIELD key = None)
    by (apply obj_get_None_keys; exact Hnot).
  destruct (in_dec string_dec key inherited_names) as [Hin|Hout].
  - destruct (obj_read_inherited _ _ Hown Hin) as [E|[name E]]; rewrite E;
      repeat split; try discriminate; intros; contradiction.
  - rewrite (obj_read_missing _ _ Hown Hout).
    repeat split; try discriminate; intros; contradiction.
Qed.

(** A key of the dictionary reads one of the five form fields, which no
    other key reads. *)
Lemma API_ERROR_TO_FORM_FIELD_known (key : string) :
  In key Wire.error_keys ->
  obj_read API_ERROR_TO_FORM_FIELD key <> JUndefined
  /\ In (obj_read API_ERROR_TO_FORM_FIELD key) Wire.error_fields
  /\ forall key',
       obj_read API_ERROR_TO_FORM_FIELD key' = obj_read API_ERROR_TO_FORM_FIELD key ->
       key' = key.
Proof.
  intros Hin. simpl in Hin.
  repeat destruct Hin as [<-|Hin]; try contradiction;
    (split; [discriminate|]; split; [simpl; tauto|]);
    intros key' E;
    (destruct (in_dec string_dec key' Wire.error_keys) as [Hin'|Hnot'];
     [ simpl in Hin'; repeat destruct Hin' as [<-|Hin']; try contradiction;
       first [reflexivity | discriminate E]
     | destruct (API_ERROR_TO_FORM_FIELD_unknown _ Hnot') as (_ & _ & Hstr);
       exfalso; exact (Hstr _ E) ]).
Qed.

(** X17: the dictionary read: the field path is undefined exactly for a key
    that is neither in the dictionary nor the name of a member inherited
    from [Object.prototype]; a key of the dictionary reads one of the five
    form fields, and no other key reads the same field. *)
Theorem API_ERROR_TO_FORM_FIELD_read (key : string) :
  (obj_read API_ERROR_TO_FORM_FIELD key = JUndefined
   <-> ~ In key Wire.error_keys /\ ~ In key inherited_names)
  /\ (In key Wire.error_keys ->
      In (obj_read API_ERROR_TO_FORM_FIELD key) Wire.error_fields
      /\ forall key',
           obj_read API_ERROR_TO_FORM_FIELD key' = obj_read API_ERROR_TO_FORM_FIELD key ->
           key' = key).
Proof.
  split; [split|].
  - intros E.
    assert (Hnot : ~ In key Wire.error_keys).
    { intros Hin. now destruct (API_ERROR_TO_FORM_FIELD_known key Hin) as [Hdef _]. }
    split; [exact Hnot|]. intros Hin.
    destruct (API_ERROR_TO_FORM_FIELD_unknown key Hnot) as (Hdef & _ & _).
    exact (Hdef Hin E).
  - intros [Hnot Hout].
    destruct (API_ERROR_TO_FORM_FIELD_unknown key Hnot) as (_ & Hundef & _).
    exact (Hundef Hout).
  - intros Hin. now destruct (API_ERROR_TO_FORM_FIELD_known key Hin) as (_ & Hfield & Hinj).
Qed.

(** X18: when every key of the payload is in the dictionary and no key occurs
    twice, every pair names one of the five form fields and no two pairs
    name the same field. *)
Theorem formatSocketErrors_known_keys (errors : list (string * list string)) :
  Forall (fun entry => In (fst entry) Wire.error_keys) errors ->
  NoDup (map fst errors) ->
  Forall (fun pair => In (fst pair) Wire.error_fields) (formatSocketErrors errors)
  /\ NoDup (map fst (formatSocketErrors errors)).
Proof.
  unfold formatSocketErrors, Object_entries.
  induction errors as [|[key messages] rest IH]; simpl; intros Hknown Hnd.
  - split; constructor.
  - inversion Hknown as [|? ? Hkey Hrest]; subst.
    inversion Hnd as [|? ? Hnotin Hnd']; subst.
    destruct (IH Hrest Hnd') as [IHfields IHnd]. simpl in Hkey.
    destruct (API_ERROR_TO_FORM_FIELD_known key Hkey) as (_ & Hfield & Hinj).
    split; constructor; auto.
    rewrite map_map. simpl. intros Hin.
    apply in_map_iff in Hin. destruct Hin as ([key' messages'] & E & Hin').
    simpl in E. apply Hinj in E. subst key'.
    apply Hnotin. now apply (in_map fst) in Hin'.
Qed.

Lemma formatSocketErrors_known_keys_witness :
  NoDup (map fst (formatSocketErrors
                    [ ("name", ["is required"]);
                      ("files", ["too many"; "too large"]) ])).
Proof.
  apply (formatSocketErrors_known_keys
           [ ("name", ["is required"]); ("files", ["too many"; "too large"]) ]).
  - repeat constructor; simpl; tauto.
  - simpl. repeat constructor; simpl; intuition discriminate.
Defined.

End RemapperFurther.

(* ===================================================================== *)
(** ** The resource registry and its pagination types *)
(* ===================================================================== *)

Section ResourceRegistry.
Import Js Resources.

Variable statsApi : StatsApi.

Lemma Array_includes_In (arr : list string) (x : string) :
  Array_includes arr x = true <-> In x arr.
Proof.
  unfold Array_includes. rewrite existsb_exists. split.
  - intros (y & Hy & E). apply String.eqb_eq in E. now subst.
  - intros Hin. exists x. split; [exact Hin | apply String.eqb_refl].
Qed.

Lemma RESOURCES_lookup_absent (R : string) :
  ~ In R (obj_keys (RESOURCES statsApi)) ->
  obj_get (RESOURCES statsApi) R = None
  /\ ~ In R PaginatedResources
  /\ ~ In R PaginationFilters.
Proof.
  intros Hnot. split; [now apply obj_get_None_keys|].
  assert (Hsub : forall names,
             forallb (Array_includes (obj_keys (RESOURCES statsApi))) names = true ->
             ~ In R names).
  { intros names Hall Hin. rewrite forallb_forall in Hall.
    apply Hnot, Array_includes_In, Hall, Hin. }
  split; apply Hsub; reflexivity.
Qed.

(** X19: the registry agrees with the pagination types: no resource name is
    declared twice; a resource is one of [PaginatedResources] exactly when
    its entry lists pagination fields, and has a filter type in
    [PaginationFilters] exactly when its entry lists at least one filter
    field; an entry has a pagination list exactly when it has a filter
    list. *)
Theorem RESOURCES_pagination (R : string) :
  NoDup (obj_keys (RESOURCES statsApi))
  /\ (In R PaginatedResources <-> ResourcePaginationKey statsApi R <> [])
  /\ (In R PaginationFilters <-> ResourceFiltersKey statsApi R <> [])
  /\ (forall r,
        obj_get (RESOURCES statsApi) R = Some r ->
        (paginationFields r = None <-> filterFields r = None)).
Proof.
  split.
  { apply (NoDup_count_occ' string_dec). intros k Hin.
    simpl in Hin. repeat destruct Hin as [<-|Hin]; try contradiction; reflexivity. }
  destruct (in_dec string_dec R (obj_keys (RESOURCES statsApi))) as [Hin|Hnot].
  - simpl in Hin.
    repeat destruct Hin as [<-|Hin]; try contradiction;
      (split; [|split];
       [ split; intros H;
         first [ solve [intros E; vm_compute in E; discriminate E]
               | solve [simpl; tauto]
               | solve [exfalso; simpl in H; intuition discriminate]
               | solve [exfalso; apply H; reflexivity] ]
       | split; intros H;
         first [ solve [intros E; vm_compute in E; discriminate E]
               | solve [simpl; tauto]
               | solve [exfalso; simpl in H; intuition discriminate]
               | solve [exfalso; apply H; reflexivity] ]
       | intros r Hr; vm_compute in Hr; injection Hr as <-; simpl;
         split; first [reflexivity | discriminate] ]).
  - destruct (RESOURCES_lookup_absent R Hnot) as (Hget & Hpag & Hfil).
    unfold ResourcePaginationKey, ResourceFiltersKey. rewrite Hget.
    repeat split; try tauto; try congruence; intros; discriminate.
Qed.

End ResourceRegistry.
